(** * weather.py: a command-line client of the weatherapi.com "current" endpoint

    A shallow embedding of [weather.py] and the properties of its
    condition classifier, query builder, HTTP error mapper and display
    formatter.  Python values are an inductive type, exceptions are a sum,
    and the effects of a run (standard output, standard error, the requests
    sent to the network) are threaded through a small state-and-exception
    monad. *)

From Stdlib Require Import ZArith Ascii String List DecimalString.
From stdpp Require Import base option strings gmap list.

#[local] Set Warnings "-register-all".
Local Open Scope string_scope.
Local Open Scope list_scope.
Local Open Scope Z_scope.

(** ** Python values and exceptions *)

(** A binary float is [m * 2^e], an infinity or a NaN.  The program only
    compares floats with the integers of the code tables and prints them. *)
Inductive pyfloat : Type :=
| FFinite (m e : Z)
| FInf (negative : bool)
| FNaN.

(** What [json.loads] can return. *)
Inductive value : Type :=
| VNone
| VBool (b : bool)
| VInt (n : Z)
| VFloat (x : pyfloat)
| VStr (s : string)
| VList (l : list value)
| VDict (d : list (string * value)).

(** The argument of [sys.exit]: a message (printed on standard error, exit
    status 1) or a status. *)
Inductive exit_arg : Type :=
| ExitMessage (msg : string)
| ExitStatus (n : Z).

(** The exception classes the run can meet. [OtherError] stands for any
    other class a library raises, by its name. *)
Inductive exn : Type :=
| KeyError (key : string)
| TypeError
| AttributeError
| HTTPError (code : Z)
| URLError
| JSONDecodeError
| UnicodeDecodeError
| OtherError (class_name : string)
| SystemExit (arg : exit_arg).

Inductive result (A : Type) : Type :=
| Ok (a : A)
| Raise (e : exn).
Arguments Ok {A} a.
Arguments Raise {A} e.

#[global] Instance result_ret : MRet result := fun A a => Ok a.
#[global] Instance result_bind : MBind result := fun A B f m =>
  match m with
  | Ok a => f a
  | Raise e => Raise e
  end.

Definition is_ok {A} (r : result A) : bool :=
  match r with Ok _ => true | Raise _ => false end.

(** ** Module constants (weather.py, lines 9-19) *)

Definition BASE_WEATHER_API_URL : string :=
  "http://api.weatherapi.com/v1/current.json".

(** A condition-code constant of the module is an [int] or a [list] of
    [int]s. *)
Inductive pyconst : Type :=
| CInt (n : Z)
| CList (l : list Z).

Definition SUNNY : pyconst := CInt 1000.
Definition CLOUDY : pyconst := CList [1003; 1006; 1009].
Definition RAIN : pyconst :=
  CList [1063; 1180; 1183; 1186; 1189; 1192; 1195; 1198; 1201; 1240; 1243;
         1246; 1249].
Definition ATMOSPHERE : pyconst := CList [1030; 1135; 1147].
Definition SNOW : pyconst :=
  CList [1066; 1069; 1114; 1204; 1207; 1210; 1213; 1216; 1219; 1222; 1225;
         1237; 1252; 1255; 1258; 1261; 1264].
Definition DRIZZLE : pyconst := CList [1072; 1150; 1153; 1168; 1171].
Definition THUNDERSTORM : pyconst := CList [1087; 1273; 1276; 1279; 1282].

(** [x == n] for a float [x] and an int [n]: Python compares the exact
    values. *)
Definition float_eq_int (x : pyfloat) (n : Z) : bool :=
  match x with
  | FFinite m e =>
      if 0 <=? e then m * 2 ^ e =? n else m =? n * 2 ^ (- e)
  | FInf _ | FNaN => false
  end.

(** [v == n] for a decoded JSON value [v] and an int [n]. *)
Definition value_eq_int (v : value) (n : Z) : bool :=
  match v with
  | VInt m => m =? n
  | VBool b => (if b then 1 else 0) =? n
  | VFloat x => float_eq_int x n
  | VNone | VStr _ | VList _ | VDict _ => false
  end.

(** [x in c]: membership in a list compares with [==]; an [int] is not a
    container, and the test raises [TypeError]. *)
Definition py_in (x : value) (c : pyconst) : result bool :=
  match c with
  | CList l => Ok (existsb (value_eq_int x) l)
  | CInt _ => Raise TypeError
  end.

(** ** The style module *)

(** Modelled from the spec: the module [style] that weather.py imports is
    not among the sources.  Its colour and format constants are symbolic
    tokens (Red, Cyan, Blue, White, Yellow, Reset, reverse video). *)
Inductive style_token : Type :=
| REVERSE | RESET | RED | CYAN | BLUE | WHITE | YELLOW.

(** ** The condition classifier (weather.py, lines 114-131) *)

Definition _select_weather_display_params (weather_id : value)
  : result (string * style_token) :=
  t ← py_in weather_id THUNDERSTORM;
  if t : bool then Ok ("💥", RED) else
  d ← py_in weather_id DRIZZLE;
  if d : bool then Ok ("💧", CYAN) else
  r ← py_in weather_id RAIN;
  if r : bool then Ok ("💦", BLUE) else
  s ← py_in weather_id SNOW;
  if s : bool then Ok ("⛄️", WHITE) else
  a ← py_in weather_id ATMOSPHERE;
  if a : bool then Ok ("🌀", BLUE) else
  y ← py_in weather_id SUNNY;
  if y : bool then Ok ("🔆", YELLOW) else
  c ← py_in weather_id CLOUDY;
  if c : bool then Ok ("💨", WHITE) else
  Ok ("🌈", RESET).

(** ** Standard output, standard error and the network *)

Inductive out_event : Type :=
| OutStyle (tok : style_token)
| OutText (s : string).

Inductive err_event : Type :=
| ErrMessage (msg : string)
| ErrUsage
| ErrTraceback (e : exn).

Record state : Type := mk_state {
  stdout : list out_event;
  stderr : list err_event;
  requests : list string
}.

Definition initial_state : state := mk_state [] [] [].

(** Code with effects: it runs from a state and ends in a state, with a
    value or an exception. *)
Definition M (A : Type) : Type := state → state * result A.

#[global] Instance M_ret : MRet M := fun A a s => (s, Ok a).
#[global] Instance M_bind : MBind M := fun A B f m s =>
  match m s with
  | (s', Ok a) => f a s'
  | (s', Raise e) => (s', Raise e)
  end.

Definition lift {A} (r : result A) : M A := fun s => (s, r).

(** [try: body except <class>: handler]: [handler e] is [Some h] when the
    clause catches [e]. *)
Definition try_except {A} (body : M A) (handler : exn → option (M A)) : M A :=
  fun s =>
    match body s with
    | (s', Ok a) => (s', Ok a)
    | (s', Raise e) =>
        match handler e with
        | Some h => h s'
        | None => (s', Raise e)
        end
    end.

(** [sys.exit(msg)] raises [SystemExit(msg)]. *)
Definition sys_exit {A} (msg : string) : M A :=
  lift (Raise (SystemExit (ExitMessage msg))).

(** [print(text, end=end_)]. *)
Definition print (text end_ : string) : M unit :=
  fun s => (mk_state (stdout s ++ [OutText (text +:+ end_)]) (stderr s) (requests s),
            Ok tt).

(** Modelled from the spec: [style.change_color] is not among the sources;
    it switches the terminal to the given token on standard output. *)
Definition change_color (tok : style_token) : M unit :=
  fun s => (mk_state (stdout s ++ [OutStyle tok]) (stderr s) (requests s), Ok tt).

(** An HTTP response object: [urlopen] returns one for a 2xx status only. *)
Record response : Type := mk_response {
  status : Z;
  read : result string
}.

(** What [parser.get(section, option)] yields for an option that is
    there: its value after interpolation ([%%] read as a percent sign,
    [%(name)s] replaced), or an interpolation error of the named class
    ([InterpolationSyntaxError] for a lone percent sign). *)
Inductive option_value : Type :=
| Value (v : string)
| NotInterpolated (error_class : string).

(** What [ConfigParser] makes of secrets.ini: the file does not exist (or
    cannot be opened), [config.read] raises an error of the named class
    ([MissingSectionHeaderError], [ParsingError], [DuplicateOptionError]),
    or the file is parsed into its sections, each with the options seen
    through it (the defaults merged in). *)
Inductive config_file : Type :=
| NoFile
| Unreadable (error_class : string)
| Parsed (sections : gmap string (gmap string option_value)).

(** What a run depends on outside weather.py: secrets.ini as
    [ConfigParser] reads it, the network behind [urllib.request.urlopen],
    [json.loads], the field width [style.PADDING], [repr] of the values
    whose text is not rebuilt here (floats, lists, dicts), and
    [str.capitalize], which maps every character of every script and can
    change the length of the text. *)
Record Env : Type := mk_env {
  secrets_ini : config_file;
  urlopen : string → result response;
  json_loads : string → result value;
  PADDING : nat;
  repr : value → string;
  str_capitalize : string → string
}.

(** ** The configuration reader (weather.py, lines 22-30) *)

(** [config.read(file)]: a file that does not exist is skipped silently
    and leaves the parser without sections; a file that does not parse
    raises. *)
Definition config_read (file : config_file)
  : result (gmap string (gmap string option_value)) :=
  match file with
  | NoFile => Ok ∅
  | Unreadable error_class => Raise (OtherError error_class)
  | Parsed sections => Ok sections
  end.

(** [parser.get] on an option that is there. *)
Definition option_get (v : option_value) : result string :=
  match v with
  | Value text => Ok text
  | NotInterpolated error_class => Raise (OtherError error_class)
  end.

(** [mapping[key]] raises [KeyError(key)] for an absent key. *)
Definition mapping_getitem {V} (m : gmap string V) (key : string) : result V :=
  match m !! key with
  | Some v => Ok v
  | None => Raise (KeyError key)
  end.

Definition _get_api_key (env : Env) : result string :=
  config ← config_read (secrets_ini env);
  section ← mapping_getitem config "weatherapi";
  stored ← mapping_getitem section "api_key";
  option_get stored.

(** ** The command line (weather.py, lines 33-47) *)

(** [argv] holds the tokens of a command line without options: no token
    starts with a hyphen, so argparse takes every token as a positional
    argument ([positional_only] below says so of a list).  The [city]
    argument has [nargs="+"]: with no token argparse prints its usage
    message and exits with status 2.  Option tokens ([-h], an unknown
    [-x]) make argparse exit by itself and are not modelled. *)
Definition read_user_cli_args (argv : list string) : M (list string) :=
  match argv with
  | [] => fun s =>
      (mk_state (stdout s) (stderr s ++ [ErrUsage]) (requests s),
       Raise (SystemExit (ExitStatus 2)))
  | _ => mret argv
  end.

(** ** Strings *)

(** [sep.join(items)]. *)
Fixpoint str_join (sep : string) (items : list string) : string :=
  match items with
  | [] => EmptyString
  | [x] => x
  | x :: rest => x +:+ sep +:+ str_join sep rest
  end.

(** [str(n)] for an int. *)
Definition decimal (n : Z) : string := NilZero.string_of_int (Z.to_int n).

Fixpoint contains (c : ascii) (s : string) : bool :=
  match s with
  | EmptyString => false
  | String c' rest => if Ascii.eqb c c' then true else contains c rest
  end.

Fixpoint map_string (f : ascii → ascii) (s : string) : string :=
  match s with
  | EmptyString => EmptyString
  | String c rest => String (f c) (map_string f rest)
  end.

(** The characters [urllib.parse.quote] never escapes: ASCII letters,
    digits and [_.-~]. *)
Definition always_safe (c : ascii) : bool :=
  let n := N_of_ascii c in
  ((65 <=? n) && (n <=? 90) || (97 <=? n) && (n <=? 122)
   || (48 <=? n) && (n <=? 57)
   || (n =? 95) || (n =? 46) || (n =? 45) || (n =? 126))%N.

Definition hex_digit (n : N) : ascii :=
  if (n <? 10)%N then ascii_of_N (48 + n) else ascii_of_N (55 + n).

(** [%XX] for a byte, in upper-case hexadecimal. *)
Definition percent_escape (c : ascii) : string :=
  let n := N_of_ascii c in
  String "%" (String (hex_digit (n / 16)) (String (hex_digit (n mod 16)) EmptyString)).

(** [urllib.parse.quote(string, safe)] on the UTF-8 bytes of [string]. *)
Fixpoint quote (s safe : string) : string :=
  match s with
  | EmptyString => EmptyString
  | String c rest =>
      (if always_safe c || contains c safe then String c EmptyString
       else percent_escape c) +:+ quote rest safe
  end.

Definition space : ascii := ascii_of_N 32.
Definition plus_sign : ascii := ascii_of_N 43.

(** [urllib.parse.quote_plus(string)]: as [quote], with each space turned
    into a plus sign. *)
Definition quote_plus (s : string) : string :=
  if negb (contains space s) then quote s EmptyString
  else map_string (fun c => if Ascii.eqb c space then plus_sign else c)
         (quote s (String space EmptyString)).

Definition upper_ascii (c : ascii) : ascii :=
  let n := N_of_ascii c in
  if ((97 <=? n) && (n <=? 122))%N then ascii_of_N (n - 32) else c.

Definition lower_ascii (c : ascii) : ascii :=
  let n := N_of_ascii c in
  if ((65 <=? n) && (n <=? 90))%N then ascii_of_N (n + 32) else c.

(** [s.capitalize()] for an ASCII text [s]: first character in upper case,
    the rest in lower case.  It stands for [str.capitalize] in the sample
    environments, whose texts are ASCII. *)
Definition ascii_capitalize (s : string) : string :=
  match s with
  | EmptyString => EmptyString
  | String c rest => String (upper_ascii c) (map_string lower_ascii rest)
  end.

(** [len(s)]: the number of code points, that is of bytes that do not
    continue a UTF-8 sequence. *)
Fixpoint py_len (s : string) : nat :=
  match s with
  | EmptyString => 0%nat
  | String c rest =>
      let n := N_of_ascii c in
      ((if ((128 <=? n) && (n <? 192))%N then 0 else 1) + py_len rest)%nat
  end.

Fixpoint spaces (n : nat) : string :=
  match n with
  | O => EmptyString
  | S k => String space (spaces k)
  end.

(** [format(s, "^width")]: [s] centred in a field of [width] characters,
    the odd space going to the right. *)
Definition format_center (s : string) (width : nat) : string :=
  let total := (width - py_len s)%nat in
  let left := (total / 2)%nat in
  spaces left +:+ s +:+ spaces (total - left).

(** ** The query builder (weather.py, lines 50-65) *)

Definition build_weather_query (env : Env) (city_input : list string)
  : result string :=
  api_key ← _get_api_key env;
  let city_name := str_join " " city_input in
  let url_encoded_city_name := quote_plus city_name in
  let url := BASE_WEATHER_API_URL +:+ "?key=" +:+ api_key +:+ "&q=" +:+ city_name in
  Ok url.

(** ** The HTTP client (weather.py, lines 68-83) *)

(** [request.urlopen(url)]: one request goes out. *)
Definition request_urlopen (env : Env) (url : string) : M response :=
  fun s => (mk_state (stdout s) (stderr s) (requests s ++ [url]), urlopen env url).

(** The classes the module [urllib.error] exports. *)
Inductive pyclass : Type :=
| URLError_class | HTTPError_class | ContentTooShortError_class.

(** [error.<name>]: the attribute [name] of the module [urllib.error]. *)
Definition urllib_error (name : string) : result pyclass :=
  if String.eqb name "URLError" then Ok URLError_class
  else if String.eqb name "HTTPError" then Ok HTTPError_class
  else if String.eqb name "ContentTooShortError" then Ok ContentTooShortError_class
  else Raise AttributeError.

(** [cls.code]: the status code is an attribute of an [HTTPError]
    instance, a class has none. *)
Definition class_code (cls : pyclass) : result Z := Raise AttributeError.

(** [error.http_error.code], as the handler writes it: the caught
    exception is not bound ([except error.HTTPError:] has no [as]). *)
Definition error_http_error_code : result Z :=
  cls ← urllib_error "http_error";
  class_code cls.

Definition get_weather_data (env : Env) (query_url : string) : M value :=
  response ← try_except (request_urlopen env query_url)
    (fun e =>
       match e with
       | HTTPError _ =>
           Some (c401 ← lift error_http_error_code;
                 if c401 =? 401 then sys_exit "Access denied. Check your API key."
                 else
                   c404 ← lift error_http_error_code;
                   if c404 =? 404 then sys_exit "Can't find weather data for this city."
                   else
                     c ← lift error_http_error_code;
                     sys_exit ("Something went wrong... (" +:+ decimal c +:+ ")"))
       | _ => None
       end);
  data ← lift (read response);
  try_except (lift (json_loads env data))
    (fun e =>
       match e with
       | JSONDecodeError => Some (sys_exit "Couldn't read the server response.")
       | _ => None
       end).

(** ** The display formatter (weather.py, lines 86-111) *)

Fixpoint dict_get (key : string) (d : list (string * value)) : option value :=
  match d with
  | [] => None
  | (k, v) :: rest => if String.eqb k key then Some v else dict_get key rest
  end.

(** [v[key]] for a string key: [KeyError] on a dict without the key,
    [TypeError] on anything that is not a dict. *)
Definition getitem (v : value) (key : string) : result value :=
  match v with
  | VDict d =>
      match dict_get key d with
      | Some x => Ok x
      | None => Raise (KeyError key)
      end
  | _ => Raise TypeError
  end.

(** [str(v)], which is what an f-string field with no format prints. *)
Definition py_str (env : Env) (v : value) : string :=
  match v with
  | VStr s => s
  | VInt n => decimal n
  | VBool true => "True"
  | VBool false => "False"
  | VNone => "None"
  | VFloat _ | VList _ | VDict _ => repr env v
  end.

(** [v.capitalize()]: only a [str] has the method. *)
Definition capitalize (env : Env) (v : value) : result string :=
  match v with
  | VStr s => Ok (str_capitalize env s)
  | _ => Raise AttributeError
  end.

Definition tab : string := String (ascii_of_N 9) EmptyString.
Definition newline : string := String (ascii_of_N 10) EmptyString.

Definition display_weather_info (env : Env) (weather_data : value) : M unit :=
  city ← lift (location ← getitem weather_data "location"; getitem location "name");
  region ← lift (location ← getitem weather_data "location"; getitem location "name");
  condition ← lift (current ← getitem weather_data "current";
                    cond ← getitem current "condition";
                    getitem cond "text");
  temperature ← lift (current ← getitem weather_data "current";
                      getitem current "temp_c");
  weather_id ← lift (current ← getitem weather_data "current";
                     cond ← getitem current "condition";
                     getitem cond "code");
  _ ← change_color REVERSE;
  _ ← print (py_str env city +:+ " (" +:+ py_str env region +:+ ")") EmptyString;
  _ ← change_color RESET;
  params ← lift (_select_weather_display_params weather_id);
  let '(weather_symbol, color) := params in
  _ ← change_color color;
  _ ← print (tab +:+ weather_symbol) " ";
  capitalized ← lift (capitalize env condition);
  _ ← print (format_center capitalized (PADDING env)) " ";
  _ ← change_color RESET;
  print ("(" +:+ py_str env temperature +:+ "°" +:+ "C" +:+ ")") newline.

(** ** The program (weather.py, lines 134-138) *)

Definition main (env : Env) (argv : list string) : M unit :=
  user_args ← read_user_cli_args argv;
  query_url ← lift (build_weather_query env user_args);
  weather_data ← get_weather_data env query_url;
  display_weather_info env weather_data.

(** What the operating system sees of a run. *)
Record process : Type := mk_process {
  p_stdout : list out_event;
  p_stderr : list err_event;
  p_status : Z;
  p_requests : list string
}.

(** The interpreter's exit: [SystemExit] with a message prints it on
    standard error and gives status 1, with a number gives that status; any
    other exception prints a traceback and gives status 1. *)
Definition exit_process (s : state) (r : result unit) : process :=
  match r with
  | Ok _ => mk_process (stdout s) (stderr s) 0 (requests s)
  | Raise (SystemExit (ExitMessage msg)) =>
      mk_process (stdout s) (stderr s ++ [ErrMessage msg]) 1 (requests s)
  | Raise (SystemExit (ExitStatus n)) =>
      mk_process (stdout s) (stderr s) n (requests s)
  | Raise e =>
      mk_process (stdout s) (stderr s ++ [ErrTraceback e]) 1 (requests s)
  end.

Definition run (env : Env) (argv : list string) : process :=
  let '(s, r) := main env argv initial_state in exit_process s r.

(** The text of standard output, style changes left out. *)
Fixpoint stdout_text (out : list out_event) : string :=
  match out with
  | [] => EmptyString
  | OutText s :: rest => s +:+ stdout_text rest
  | OutStyle _ :: rest => stdout_text rest
  end.

(** ** The words of the specification *)

(** The codes a table entry stands for: the members of a list, the single
    value of an int. *)
Definition members (c : pyconst) : list Z :=
  match c with
  | CList l => l
  | CInt n => [n]
  end.

(** The codes of the first five tables, the ones tested before [SUNNY],
    and the codes of all seven. *)
Definition first_five_codes : list Z :=
  members THUNDERSTORM ++ members DRIZZLE ++ members RAIN ++ members SNOW
    ++ members ATMOSPHERE.

Definition listed_codes : list Z :=
  first_five_codes ++ members SUNNY ++ members CLOUDY.


(** The four fields the formatter reads from the decoded response:
    [location.name], [current.condition.text], [current.temp_c] and
    [current.condition.code]. *)
Definition has_fields (data name text temperature code : value) : Prop :=
  (location ← getitem data "location"; getitem location "name") = Ok name
  ∧ (current ← getitem data "current";
     cond ← getitem current "condition";
     getitem cond "text") = Ok text
  ∧ (current ← getitem data "current"; getitem current "temp_c") = Ok temperature
  ∧ (current ← getitem data "current";
     cond ← getitem current "condition";
     getitem cond "code") = Ok code.

(** The head of the line, [city (region)] in reverse video, and the whole
    line. *)
Definition line_head (env : Env) (name : value) : list out_event :=
  [OutStyle REVERSE;
   OutText (py_str env name +:+ " (" +:+ py_str env name +:+ ")");
   OutStyle RESET].

Definition full_line (env : Env) (name : value) (text : string)
    (temperature : value) (glyph : string) (color : style_token)
  : list out_event :=
  line_head env name ++
  [OutStyle color;
   OutText ((tab +:+ glyph) +:+ " ");
   OutText (format_center (str_capitalize env text) (PADDING env) +:+ " ");
   OutStyle RESET;
   OutText (("(" +:+ py_str env temperature +:+ "°" +:+ "C" +:+ ")") +:+ newline)].

(** A run ends cleanly when the last thing on standard error is a message
    of the program and the status is not zero; it crashes when standard
    error carries a traceback. *)
Definition clean_termination (p : process) : Prop :=
  (∃ msg, last (p_stderr p) = Some (ErrMessage msg)) ∧ p_status p ≠ 0.

Definition unhandled_crash (p : process) : Prop :=
  ∃ e, last (p_stderr p) = Some (ErrTraceback e).


(** The three ways the credential can be missing: no secrets.ini, no
    section [weatherapi] in it, no option [api_key] in the section. *)
Definition file_missing (env : Env) : Prop :=
  secrets_ini env = NoFile.

Definition section_absent (env : Env) : Prop :=
  ∃ cfg, secrets_ini env = Parsed cfg ∧ cfg !! "weatherapi" = None.

Definition key_absent (env : Env) : Prop :=
  ∃ cfg section, secrets_ini env = Parsed cfg
    ∧ cfg !! "weatherapi" = Some section ∧ section !! "api_key" = None.

Definition credential_missing (env : Env) : Prop :=
  file_missing env ∨ section_absent env ∨ key_absent env.

(** No token of the command line starts with a hyphen: argparse reads
    every token as a positional argument. *)
Definition is_option_token (token : string) : bool :=
  match token with
  | String c _ => Ascii.eqb c (ascii_of_N 45)
  | EmptyString => false
  end.

Definition positional_only (argv : list string) : bool :=
  forallb (fun token => negb (is_option_token token)) argv.

(** ** Sample runs *)

(** A secrets.ini with the one section and the one key. *)
Definition secrets_with (key : string) : config_file :=
  Parsed {[ "weatherapi" := {[ "api_key" := Value key ]} ]}.

(** JSON text written with an apostrophe for each double quote. *)
Definition json_text (s : string) : string :=
  map_string (fun c => if Ascii.eqb c (ascii_of_N 39) then ascii_of_N 34 else c) s.

Definition paris_body : string :=
  json_text "{'location':{'name':'Paris'},'current':{'condition':{'text':'Clear','code':1000},'temp_c':22}}".

Definition paris : value :=
  VDict [("location", VDict [("name", VStr "Paris")]);
         ("current",
          VDict [("condition", VDict [("text", VStr "Clear"); ("code", VInt 1000)]);
                 ("temp_c", VInt 22)])].

Definition oslo : value :=
  VDict [("location", VDict [("name", VStr "Oslo")]);
         ("current",
          VDict [("condition", VDict [("text", VStr "light snow"); ("code", VInt 1213)]);
                 ("temp_c", VInt (-3))])].

(** An environment from its configuration file, what the network answers
    to every request and what [json.loads] makes of every body. *)
Definition sample_env (secrets : config_file)
    (answer : result response) (decoded : result value) : Env :=
  mk_env secrets (fun _ => answer) (fun _ => decoded) 20 (fun _ => "?")
    ascii_capitalize.

(** A 200 response with the Paris body of the specification. *)
Definition env_paris : Env :=
  sample_env (secrets_with "KEY") (Ok (mk_response 200 (Ok paris_body))) (Ok paris).

Definition env_oslo : Env :=
  sample_env (secrets_with "KEY") (Ok (mk_response 200 (Ok "..."))) (Ok oslo).

(** No secrets.ini at all. *)
Definition env_without_secrets : Env :=
  sample_env NoFile (Ok (mk_response 200 (Ok paris_body))) (Ok paris).

(** A secrets.ini with another section only. *)
Definition env_without_section : Env :=
  sample_env (Parsed {[ "openweather" := {[ "api_key" := Value "KEY" ]} ]})
    (Ok (mk_response 200 (Ok paris_body))) (Ok paris).

(** A secrets.ini whose section [weatherapi] has another option only. *)
Definition env_without_key : Env :=
  sample_env (Parsed {[ "weatherapi" := {[ "key" := Value "KEY" ]} ]})
    (Ok (mk_response 200 (Ok paris_body))) (Ok paris).

(** A secrets.ini that starts without a section header. *)
Definition env_unparsable_secrets : Env :=
  sample_env (Unreadable "MissingSectionHeaderError")
    (Ok (mk_response 200 (Ok paris_body))) (Ok paris).

(** A secrets.ini whose key holds a lone percent sign. *)
Definition env_percent_key : Env :=
  sample_env
    (Parsed {[ "weatherapi" := {[ "api_key" := NotInterpolated "InterpolationSyntaxError" ]} ]})
    (Ok (mk_response 200 (Ok paris_body))) (Ok paris).

(** The server answers 401. *)
Definition env_unauthorized : Env :=
  sample_env (secrets_with "KEY") (Raise (HTTPError 401)) (Ok paris).


(** A 200 response whose body is not JSON. *)
Definition env_malformed : Env :=
  sample_env (secrets_with "KEY") (Ok (mk_response 200 (Ok "<html>"))) (Raise JSONDecodeError).

(** The one byte 255, which is not UTF-8 text, and a 200 response with
    that body: [json.loads] raises [UnicodeDecodeError] while it decodes
    the bytes. *)
Definition byte_255 : string := String (ascii_of_N 255) EmptyString.

Definition env_not_utf8 : Env :=
  sample_env (secrets_with "KEY") (Ok (mk_response 200 (Ok byte_255)))
    (Raise UnicodeDecodeError).

Definition london_url : string :=
  "http://api.weatherapi.com/v1/current.json?key=KEY&q=london".

(** ** Outcomes of the formatter and of a run *)

(** [s] with [events] written to standard output. *)
Definition with_output (s : state) (events : list out_event) : state :=
  mk_state (stdout s ++ events) (stderr s) (requests s).

(** The second segment of the line: the colour of the table, then a tab,
    the glyph and a space. *)
Definition glyph_segment (glyph : string) (color : style_token) : list out_event :=
  [OutStyle color; OutText ((tab +:+ glyph) +:+ " ")].

(** The pairs of the five branches above the [SUNNY] test. *)
Definition first_five_pairs : list (string * style_token) :=
  [("💥", RED); ("💧", CYAN); ("💦", BLUE); ("⛄️", WHITE); ("🌀", BLUE)].

(** The four ways [display_weather_info] can end from the state [s]: a
    field is missing and nothing is printed; the classifier raises after
    the head; the condition text is not a [str] and [capitalize] raises
    after the glyph; the whole line is printed. *)
Inductive display_outcome (env : Env) (data : value) (s : state)
  : state * result unit → Prop :=
| stops_at_fields (e : exn) :
    (¬ ∃ name text temperature code, has_fields data name text temperature code) →
    e = TypeError ∨ (∃ key, e = KeyError key) →
    display_outcome env data s (s, Raise e)
| stops_after_head (name text temperature code : value) :
    has_fields data name text temperature code →
    _select_weather_display_params code = Raise TypeError →
    display_outcome env data s
      (with_output s (line_head env name), Raise TypeError)
| stops_after_glyph (name text temperature code : value)
    (glyph : string) (color : style_token) :
    has_fields data name text temperature code →
    _select_weather_display_params code = Ok (glyph, color) →
    (∀ t, text ≠ VStr t) →
    display_outcome env data s
      (with_output s (line_head env name ++ glyph_segment glyph color),
       Raise AttributeError)
| prints_full_line (name temperature code : value) (text glyph : string)
    (color : style_token) :
    has_fields data name (VStr text) temperature code →
    _select_weather_display_params code = Ok (glyph, color) →
    display_outcome env data s
      (with_output s (full_line env name text temperature glyph color), Ok tt).

(** What a subscript can raise. *)
Definition lookup_error (e : exn) : Prop :=
  e = TypeError ∨ ∃ key, e = KeyError key.

(** [e] is not [SystemExit]: uncaught, it ends the run with a traceback. *)
Definition is_error (e : exn) : Prop :=
  match e with
  | SystemExit _ => False
  | _ => True
  end.

(** The libraries behind [urlopen], [read] and [json.loads] raise errors,
    they do not call [sys.exit]. *)
Definition libraries_do_not_exit (env : Env) : Prop :=
  (∀ url e, urlopen env url = Raise e → is_error e)
  ∧ (∀ url resp e, urlopen env url = Ok resp → read resp = Raise e → is_error e)
  ∧ (∀ body e, json_loads env body = Raise e → is_error e).

(** Every character of [s] passes the test [p]. *)
Fixpoint all_chars (p : ascii → bool) (s : string) : bool :=
  match s with
  | EmptyString => true
  | String c rest => p c && all_chars p rest
  end.

(** The URL the query builder makes of a key and a city string. *)
Definition query_url_of (key city : string) : string :=
  BASE_WEATHER_API_URL +:+ "?key=" +:+ key +:+ "&q=" +:+ city.


(** A response whose condition text is JSON null. *)
Definition lima_null_text : value :=
  VDict [("location", VDict [("name", VStr "Lima")]);
         ("current",
          VDict [("condition", VDict [("text", VNone); ("code", VInt 1087)]);
                 ("temp_c", VInt 19)])].

(** [m] sends nothing to the network. *)
Definition keeps_requests {A} (m : M A) : Prop :=
  ∀ s, requests (m s).1 = requests s.

(** Splits [H : code ∈ [k1; ...; kn]] into the [n] cases [code = ki]. *)
Ltac each_member H :=
  repeat (apply elem_of_cons in H as [->|H]);
  try (apply elem_of_nil in H; destruct H).

(** * Properties *)

(** ** The monads *)

Lemma result_bind_ok {A B} (f : A → result B) (a : A) : Ok a ≫= f = f a.
Proof. reflexivity. Qed.

Lemma result_bind_raise {A B} (f : A → result B) (e : exn) :
  (Raise e : result A) ≫= f = Raise e.
Proof. reflexivity. Qed.

Lemma bind_ok {A B} (m : M A) (k : A → M B) (s s' : state) (a : A) :
  m s = (s', Ok a) → (m ≫= k) s = k a s'.
Proof. intros H. unfold mbind, M_bind. now rewrite H. Qed.

Lemma bind_raise {A B} (m : M A) (k : A → M B) (s s' : state) (e : exn) :
  m s = (s', Raise e) → (m ≫= k) s = (s', Raise e).
Proof. intros H. unfold mbind, M_bind. now rewrite H. Qed.

Lemma lift_ok {A B} (r : result A) (k : A → M B) (s : state) (a : A) :
  r = Ok a → (lift r ≫= k) s = k a s.
Proof. intros ->. reflexivity. Qed.

Lemma lift_raise {A B} (r : result A) (k : A → M B) (s : state) (e : exn) :
  r = Raise e → (lift r ≫= k) s = (s, Raise e).
Proof. intros ->. reflexivity. Qed.

(** ** The condition classifier *)

Lemma py_in_int_list (code : Z) (l : list Z) :
  py_in (VInt code) (CList l) = Ok (bool_decide (code ∈ l)).
Proof.
  unfold py_in. f_equal.
  induction l as [|k l IH].
  - symmetry. apply bool_decide_eq_false_2, not_elem_of_nil.
  - cbn [existsb value_eq_int]. rewrite IH.
    destruct (Z.eqb_spec code k) as [->|Hne]; cbn [orb].
    + symmetry. apply bool_decide_eq_true_2, list_elem_of_here.
    + apply bool_decide_ext. rewrite elem_of_cons. tauto.
Qed.

(** On an int the classifier answers for the first five tables and raises
    [TypeError] at the sixth test. *)
Lemma classifier_on_int (code : Z) :
  _select_weather_display_params (VInt code) =
    if bool_decide (code ∈ members THUNDERSTORM) then Ok ("💥", RED)
    else if bool_decide (code ∈ members DRIZZLE) then Ok ("💧", CYAN)
    else if bool_decide (code ∈ members RAIN) then Ok ("💦", BLUE)
    else if bool_decide (code ∈ members SNOW) then Ok ("⛄️", WHITE)
    else if bool_decide (code ∈ members ATMOSPHERE) then Ok ("🌀", BLUE)
    else Raise TypeError.
Proof.
  unfold _select_weather_display_params.
  unfold THUNDERSTORM, DRIZZLE, RAIN, SNOW, ATMOSPHERE, members.
  rewrite !py_in_int_list, !result_bind_ok.
  repeat (case_bool_decide; [reflexivity|]; rewrite ?result_bind_ok).
  reflexivity.
Qed.

Example classify_thunderstorm_1087 :
  _select_weather_display_params (VInt 1087) = Ok ("💥", RED).
Proof. reflexivity. Qed.

Example classify_float_1087 :
  _select_weather_display_params (VFloat (FFinite 1087 0)) = Ok ("💥", RED).
Proof. reflexivity. Qed.

Example classify_text_raises :
  _select_weather_display_params (VStr "1087") = Raise TypeError.
Proof. reflexivity. Qed.

(** X1: every code of the Thunderstorm, Drizzle, Rain, Snow and
    Atmosphere tables gets the glyph and colour of its table. *)
Lemma first_five_tables_classified (code : Z) :
  (code ∈ members THUNDERSTORM →
     _select_weather_display_params (VInt code) = Ok ("💥", RED))
  ∧ (code ∈ members DRIZZLE →
     _select_weather_display_params (VInt code) = Ok ("💧", CYAN))
  ∧ (code ∈ members RAIN →
     _select_weather_display_params (VInt code) = Ok ("💦", BLUE))
  ∧ (code ∈ members SNOW →
     _select_weather_display_params (VInt code) = Ok ("⛄️", WHITE))
  ∧ (code ∈ members ATMOSPHERE →
     _select_weather_display_params (VInt code) = Ok ("🌀", BLUE)).
Proof.
  repeat split; intros H; cbn [members THUNDERSTORM DRIZZLE RAIN SNOW ATMOSPHERE] in H;
    unfold THUNDERSTORM, DRIZZLE, RAIN, SNOW, ATMOSPHERE in H;
    each_member H; reflexivity.
Qed.

Lemma outside_first_five_raises (code : Z) :
  code ∉ first_five_codes →
  _select_weather_display_params (VInt code) = Raise TypeError.
Proof.
  unfold first_five_codes. rewrite !not_elem_of_app.
  intros (Ht & Hd & Hr & Hs & Ha).
  rewrite classifier_on_int.
  rewrite !bool_decide_eq_false_2 by assumption. reflexivity.
Qed.

(** C1 (the code departs from the claim): for the Sunny value 1000 and for
    every code of the Cloudy table the classifier returns no pair at all:
    the sixth test, [weather_id in SUNNY] with [SUNNY] an int, raises
    [TypeError] before the Sunny and Cloudy branches are reached. *)
Theorem sunny_and_cloudy_codes_raise_TypeError (code : Z) :
  code ∈ members SUNNY ++ members CLOUDY →
  _select_weather_display_params (VInt code) = Raise TypeError.
Proof.
  intros H. unfold SUNNY, CLOUDY, members in H. cbn [app] in H.
  each_member H; reflexivity.
Qed.

(** C1 at the Sunny value. *)
Lemma sunny_code_1000_raises_TypeError :
  1000 ∈ members SUNNY ++ members CLOUDY
  ∧ _select_weather_display_params (VInt 1000) = Raise TypeError.
Proof.
  split.
  - apply list_elem_of_here.
  - apply (sunny_and_cloudy_codes_raise_TypeError 1000), list_elem_of_here.
Defined.

(** C2 (the code departs from the claim): the classifier is not total on
    the integers; it yields a pair exactly for the codes of the
    Thunderstorm, Drizzle, Rain, Snow and Atmosphere tables, and raises
    for every other integer. *)
Theorem classifier_defined_only_on_first_five_tables (code : Z) :
  is_ok (_select_weather_display_params (VInt code)) = true
  ↔ code ∈ first_five_codes.
Proof.
  unfold first_five_codes. rewrite classifier_on_int, !elem_of_app.
  repeat case_bool_decide; cbn [is_ok]; split; intros Hyp;
    try reflexivity; try discriminate; tauto.
Qed.

(** C3 (the code departs from the claim): an integer outside all seven
    tables does not reach the fallback branch; the classifier raises
    [TypeError] at the Sunny test instead of returning the rainbow glyph
    with the reset colour. *)
Theorem unlisted_code_raises_TypeError (code : Z) :
  code ∉ listed_codes →
  _select_weather_display_params (VInt code) = Raise TypeError
  ∧ _select_weather_display_params (VInt code) ≠ Ok ("🌈", RESET).
Proof.
  intros H. unfold listed_codes in H. apply not_elem_of_app in H as [H _].
  pose proof (outside_first_five_raises code H) as E.
  split; [exact E | rewrite E; discriminate].
Qed.

(** C3 at the code 9999. *)
Lemma unlisted_code_9999_raises_TypeError :
  (9999 ∉ listed_codes)
  ∧ _select_weather_display_params (VInt 9999) = Raise TypeError
  ∧ _select_weather_display_params (VInt 9999) ≠ Ok ("🌈", RESET).
Proof.
  assert (H : 9999 ∉ listed_codes).
  { apply (bool_decide_unpack (9999 ∉ listed_codes)). vm_compute. exact I. }
  split; [exact H | exact (unlisted_code_raises_TypeError 9999 H)].
Defined.

(** ** The query builder *)

Example str_join_new_york : str_join " " ["new"; "york"] = "new york".
Proof. reflexivity. Qed.

Example quote_plus_sao_paulo :
  quote_plus "São Paulo/x&y=z~" = "S%C3%A3o+Paulo%2Fx%26y%3Dz~".
Proof. reflexivity. Qed.

Example format_center_odd : format_center "ab" 5 = " ab  ".
Proof. reflexivity. Qed.



Lemma build_weather_query_ok (env : Env) (tokens : list string) (key : string) :
  _get_api_key env = Ok key →
  build_weather_query env tokens =
    Ok (BASE_WEATHER_API_URL +:+ "?key=" +:+ key +:+ "&q=" +:+ str_join " " tokens).
Proof. intros H. unfold build_weather_query. rewrite H. reflexivity. Qed.

Lemma build_weather_query_raise (env : Env) (tokens : list string) (e : exn) :
  _get_api_key env = Raise e → build_weather_query env tokens = Raise e.
Proof. intros H. unfold build_weather_query. rewrite H. reflexivity. Qed.

(** ** What each step does to the state *)

Lemma keeps_requests_bind {A B} (m : M A) (k : A → M B) :
  keeps_requests m → (∀ a, keeps_requests (k a)) → keeps_requests (m ≫= k).
Proof.
  intros Hm Hk s. unfold mbind, M_bind. specialize (Hm s).
  destruct (m s) as [s' [a|e]]; cbn [fst] in *.
  - rewrite <- Hm. apply Hk.
  - exact Hm.
Qed.

Lemma keeps_requests_lift {A} (r : result A) : keeps_requests (lift r).
Proof. intros s. reflexivity. Qed.

Lemma keeps_requests_print (text end_ : string) : keeps_requests (print text end_).
Proof. intros s. reflexivity. Qed.

Lemma keeps_requests_change_color (tok : style_token) :
  keeps_requests (change_color tok).
Proof. intros s. reflexivity. Qed.

Lemma display_keeps_requests (env : Env) (weather_data : value) :
  keeps_requests (display_weather_info env weather_data).
Proof.
  unfold display_weather_info.
  repeat first
    [ apply keeps_requests_lift
    | apply keeps_requests_print
    | apply keeps_requests_change_color
    | apply keeps_requests_bind; [|intros ?]
    | match goal with |- keeps_requests (let '(_, _) := ?p in _) => destruct p end ].
Qed.

(** [get_weather_data] sends exactly one request, the URL it was given,
    and writes nothing, however the request ends. *)
Lemma get_weather_data_one_request (env : Env) (url : string) (s : state) :
  (get_weather_data env url s).1 =
    mk_state (stdout s) (stderr s) (requests s ++ [url]).
Proof.
  unfold get_weather_data, try_except, request_urlopen, sys_exit, lift,
    mbind, M_bind.
  destruct (urlopen env url) as [resp|e].
  - destruct (read resp) as [body|e]; [|reflexivity].
    destruct (json_loads env body) as [v|e]; [reflexivity|].
    destruct e; reflexivity.
  - destruct e; reflexivity.
Qed.

Lemma run_requests (env : Env) (argv : list string) :
  p_requests (run env argv) = requests (main env argv initial_state).1.
Proof.
  unfold run. destruct (main env argv initial_state) as [s [u|e]]; [reflexivity|].
  destruct e as [| | | | | | | |[msg|n]]; reflexivity.
Qed.

(** After the command line and the configuration, a run is the request
    followed by the display. *)
Lemma main_from_url (env : Env) (argv : list string) (url : string) (s : state) :
  argv ≠ [] → build_weather_query env argv = Ok url →
  main env argv s =
    (get_weather_data env url ≫= display_weather_info env) s.
Proof.
  intros Hne Hurl. unfold main.
  destruct argv as [|t ts]; [congruence|].
  cbn [read_user_cli_args]. unfold mbind at 1, M_bind at 1, mret, M_ret.
  rewrite (lift_ok _ _ _ url Hurl). reflexivity.
Qed.




Lemma append_empty_r (s : string) : s +:+ EmptyString = s.
Proof.
  induction s as [|c s IH]; [reflexivity|].
  change (String c (s +:+ EmptyString) = String c s). f_equal. exact IH.
Qed.

Lemma append_cancel_l (p a b : string) : p +:+ a = p +:+ b → a = b.
Proof.
  induction p as [|c p IH]; cbn [String.append]; intros H.
  - exact H.
  - injection H as H. auto.
Qed.

(** C4 (the code departs from the claim): the query builder computes the
    escaped city with [quote_plus] and then leaves it unused: the URL
    carries the city as typed.  For the tokens new, york the value after
    [&q=] is "new york" with a raw space, where the escaped text is
    "new+york". *)
Theorem query_city_is_not_percent_encoded (env : Env) (key : string) :
  _get_api_key env = Ok key →
  let url_with := fun city =>
    BASE_WEATHER_API_URL +:+ "?key=" +:+ key +:+ "&q=" +:+ city in
  (∀ tokens, build_weather_query env tokens = Ok (url_with (str_join " " tokens)))
  ∧ build_weather_query env ["new"; "york"] = Ok (url_with "new york")
  ∧ quote_plus "new york" = "new+york"
  ∧ build_weather_query env ["new"; "york"] ≠ Ok (url_with (quote_plus "new york")).
Proof.
  intros Hkey url_with.
  pose proof (build_weather_query_ok env) as Hall.
  split; [intros tokens; now apply Hall|].
  split; [now apply Hall|]. split; [reflexivity|].
  rewrite (Hall _ key Hkey). unfold url_with. intros H. injection H as H.
  repeat apply append_cancel_l in H. vm_compute in H. discriminate H.
Qed.

(** C4 for the tokens new, york. *)
Lemma new_york_query_has_raw_space :
  _get_api_key env_paris = Ok "KEY"
  ∧ build_weather_query env_paris ["new"; "york"] =
      Ok "http://api.weatherapi.com/v1/current.json?key=KEY&q=new york"
  ∧ quote_plus "new york" = "new+york".
Proof.
  pose proof (query_city_is_not_percent_encoded env_paris "KEY" eq_refl)
    as (_ & Hurl & Hquote & _).
  split; [reflexivity|]. split; [exact Hurl | exact Hquote].
Defined.

(** ** The configuration reader *)

Lemma get_api_key_without_section (env : Env) :
  file_missing env ∨ section_absent env →
  _get_api_key env = Raise (KeyError "weatherapi").
Proof.
  unfold _get_api_key, mapping_getitem.
  intros [Hfile|(cfg & Hfile & Hsec)]; rewrite Hfile; cbn [config_read];
    rewrite result_bind_ok.
  - rewrite lookup_empty. reflexivity.
  - rewrite Hsec. reflexivity.
Qed.

Lemma get_api_key_without_key (env : Env) :
  key_absent env → _get_api_key env = Raise (KeyError "api_key").
Proof.
  unfold _get_api_key, mapping_getitem.
  intros (cfg & section & Hfile & Hsec & Hkey). rewrite Hfile. cbn [config_read].
  rewrite result_bind_ok, Hsec, result_bind_ok, Hkey. reflexivity.
Qed.

(** When the query cannot be built the run stops there. *)
Lemma main_stops_at_query (env : Env) (argv : list string) (e : exn) (s : state) :
  argv ≠ [] → build_weather_query env argv = Raise e →
  main env argv s = (s, Raise e).
Proof.
  intros Hne Hurl. unfold main.
  destruct argv as [|t ts]; [congruence|].
  cbn [read_user_cli_args]. unfold mbind at 1, M_bind at 1, mret, M_ret.
  apply lift_raise, Hurl.
Qed.

(** A run whose configuration cannot be read ends with that exception,
    before any request. *)
Lemma run_stops_at_configuration (env : Env) (argv : list string) (e : exn) :
  argv ≠ [] → _get_api_key env = Raise e → is_error e →
  build_weather_query env argv = Raise e
  ∧ run env argv = mk_process [] [ErrTraceback e] 1 [].
Proof.
  intros Hne Hraise He.
  pose proof (build_weather_query_raise env argv _ Hraise) as Hurl.
  split; [exact Hurl|].
  unfold run. rewrite (main_stops_at_query env argv _ _ Hne Hurl).
  destruct e; try reflexivity. destruct He.
Qed.

(** C8, as amended: for a run with a city on the command line (tokens
    with no leading hyphen), when secrets.ini is missing or has no
    [weatherapi] section the run ends with an uncaught
    [KeyError('weatherapi')], and when the section has no [api_key] it ends
    with an uncaught [KeyError('api_key')]; each is shown as a traceback
    with exit status 1, no request has been sent and nothing is on
    standard output. *)
Theorem missing_credential_is_uncaught_KeyError (env : Env) (argv : list string) :
  argv ≠ [] → positional_only argv = true →
  (file_missing env →
     build_weather_query env argv = Raise (KeyError "weatherapi")
     ∧ run env argv = mk_process [] [ErrTraceback (KeyError "weatherapi")] 1 [])
  ∧ (section_absent env →
     build_weather_query env argv = Raise (KeyError "weatherapi")
     ∧ run env argv = mk_process [] [ErrTraceback (KeyError "weatherapi")] 1 [])
  ∧ (key_absent env →
     build_weather_query env argv = Raise (KeyError "api_key")
     ∧ run env argv = mk_process [] [ErrTraceback (KeyError "api_key")] 1 []).
Proof.
  intros Hne _. split; [|split]; intros Hmiss.
  - apply run_stops_at_configuration; [exact Hne | | exact I].
    apply get_api_key_without_section. now left.
  - apply run_stops_at_configuration; [exact Hne | | exact I].
    apply get_api_key_without_section. now right.
  - apply run_stops_at_configuration; [exact Hne | | exact I].
    now apply get_api_key_without_key.
Qed.

(** C8, as amended, for the three sample files: none, one without the
    section, one without the key. *)
Lemma missing_secrets_file_witness :
  ["london"] ≠ [] ∧ positional_only ["london"] = true
  ∧ file_missing env_without_secrets
  ∧ section_absent env_without_section
  ∧ key_absent env_without_key
  ∧ run env_without_secrets ["london"]
      = mk_process [] [ErrTraceback (KeyError "weatherapi")] 1 []
  ∧ run env_without_section ["london"]
      = mk_process [] [ErrTraceback (KeyError "weatherapi")] 1 []
  ∧ run env_without_key ["london"]
      = mk_process [] [ErrTraceback (KeyError "api_key")] 1 [].
Proof.
  assert (Hne : ["london"] ≠ []) by discriminate.
  assert (Hfile : file_missing env_without_secrets) by reflexivity.
  assert (Hsec : section_absent env_without_section).
  { eexists. split; reflexivity. }
  assert (Hkey : key_absent env_without_key).
  { eexists. eexists. repeat split; reflexivity. }
  split; [exact Hne|]. split; [reflexivity|].
  split; [exact Hfile|]. split; [exact Hsec|]. split; [exact Hkey|].
  pose proof (missing_credential_is_uncaught_KeyError env_without_secrets ["london"]
                Hne eq_refl) as (H1 & _ & _).
  pose proof (missing_credential_is_uncaught_KeyError env_without_section ["london"]
                Hne eq_refl) as (_ & H2 & _).
  pose proof (missing_credential_is_uncaught_KeyError env_without_key ["london"]
                Hne eq_refl) as (_ & _ & H3).
  split; [exact (proj2 (H1 Hfile))|].
  split; [exact (proj2 (H2 Hsec)) | exact (proj2 (H3 Hkey))].
Defined.

(** C8, the claim as stated fails: with no secrets.ini the run ends in the
    traceback of a [KeyError], not in a message of the program. *)
Lemma missing_secrets_file_ends_in_traceback :
  run env_without_secrets ["london"]
    = mk_process [] [ErrTraceback (KeyError "weatherapi")] 1 []
  ∧ credential_missing env_without_secrets
  ∧ unhandled_crash (run env_without_secrets ["london"])
  ∧ ¬ clean_termination (run env_without_secrets ["london"]).
Proof.
  split; [reflexivity|]. split; [left; reflexivity|]. split.
  - exists (KeyError "weatherapi"). reflexivity.
  - intros [[msg Hmsg] _]. discriminate Hmsg.
Qed.

(** ** The HTTP client *)

Lemma error_http_error_code_raises : error_http_error_code = Raise AttributeError.
Proof. reflexivity. Qed.

(** A run whose request raises ends with that exception. *)
Lemma run_stops_at_request
    (env : Env) (argv : list string) (url : string) (e : exn) (s : state) :
  argv ≠ [] → build_weather_query env argv = Ok url →
  get_weather_data env url initial_state = (s, Raise e) →
  run env argv = exit_process s (Raise e).
Proof.
  intros Hne Hurl Hget. unfold run.
  rewrite (main_from_url env argv url _ Hne Hurl).
  rewrite (bind_raise _ _ _ _ _ Hget). reflexivity.
Qed.

Lemma get_weather_data_http_error (env : Env) (url : string) (code : Z) (s : state) :
  urlopen env url = Raise (HTTPError code) →
  get_weather_data env url s =
    (mk_state (stdout s) (stderr s) (requests s ++ [url]), Raise AttributeError).
Proof.
  intros Hnet.
  unfold get_weather_data, try_except, request_urlopen, mbind at 1, M_bind at 1.
  rewrite Hnet. reflexivity.
Qed.

(** C5 (the code departs from the claim): on an HTTP error status, be it
    401, 404 or any other, the handler evaluates [error.http_error.code],
    an attribute the module [urllib.error] does not have, and
    [AttributeError] leaves [get_weather_data]; the run ends with its
    traceback and status 1, none of the three messages is printed, and
    standard output stays empty. *)
Theorem http_error_status_raises_AttributeError
    (env : Env) (argv : list string) (url : string) (code : Z) :
  argv ≠ [] → build_weather_query env argv = Ok url →
  urlopen env url = Raise (HTTPError code) →
  (∀ s, get_weather_data env url s =
          (mk_state (stdout s) (stderr s) (requests s ++ [url]),
           Raise AttributeError))
  ∧ run env argv = mk_process [] [ErrTraceback AttributeError] 1 [url].
Proof.
  intros Hne Hurl Hnet.
  pose proof (get_weather_data_http_error env url code) as Hget.
  split; [intros s; now apply Hget|].
  rewrite (run_stops_at_request env argv url _ _ Hne Hurl (Hget _ Hnet)).
  reflexivity.
Qed.

(** C5 for a 401 answer. *)
Lemma status_401_raises_AttributeError :
  ["london"] ≠ [] ∧ build_weather_query env_unauthorized ["london"] = Ok london_url
  ∧ urlopen env_unauthorized london_url = Raise (HTTPError 401)
  ∧ (∀ s, get_weather_data env_unauthorized london_url s =
            (mk_state (stdout s) (stderr s) (requests s ++ [london_url]),
             Raise AttributeError))
  ∧ run env_unauthorized ["london"]
      = mk_process [] [ErrTraceback AttributeError] 1 [london_url].
Proof.
  split; [discriminate|]. split; [reflexivity|]. split; [reflexivity|].
  apply (http_error_status_raises_AttributeError env_unauthorized ["london"]
           london_url 401); [discriminate | reflexivity | reflexivity].
Defined.





Lemma get_weather_data_malformed
    (env : Env) (url : string) (resp : response) (body : string) (s : state) :
  urlopen env url = Ok resp → read resp = Ok body →
  json_loads env body = Raise JSONDecodeError →
  get_weather_data env url s =
    (mk_state (stdout s) (stderr s) (requests s ++ [url]),
     Raise (SystemExit (ExitMessage "Couldn't read the server response."))).
Proof.
  intros Hnet Hread Hjson.
  unfold get_weather_data, try_except, request_urlopen, mbind at 1, M_bind at 1.
  rewrite Hnet. rewrite (lift_ok _ _ _ body Hread).
  unfold lift at 1. rewrite Hjson. reflexivity.
Qed.

Lemma get_weather_data_undecoded
    (env : Env) (url : string) (resp : response) (body : string) (e : exn)
    (s : state) :
  urlopen env url = Ok resp → read resp = Ok body →
  json_loads env body = Raise e → e ≠ JSONDecodeError →
  get_weather_data env url s =
    (mk_state (stdout s) (stderr s) (requests s ++ [url]), Raise e).
Proof.
  intros Hnet Hread Hjson Hother.
  unfold get_weather_data, try_except, request_urlopen, mbind at 1, M_bind at 1.
  rewrite Hnet. rewrite (lift_ok _ _ _ body Hread).
  unfold lift at 1. rewrite Hjson.
  destruct e; try reflexivity. now elim Hother.
Qed.

(** C7, as amended: for a run with a city on the command line (tokens
    with no leading hyphen), when [json.loads] rejects the body of the
    response [urlopen] returned (a 2xx response) with [JSONDecodeError],
    [get_weather_data] returns nothing: it raises [SystemExit] with the
    message "Couldn't read the server response.", and the run ends at once
    with that message on standard error, exit status 1 and an empty
    standard output.  When [json.loads] rejects the body with any other
    error ([UnicodeDecodeError] for bytes that are not UTF-8), the error is
    not handled: it leaves [get_weather_data] unchanged and the run ends
    with its traceback, exit status 1 and an empty standard output, without
    the message. *)
Theorem undecodable_body_exits_or_propagates
    (env : Env) (argv : list string) (url : string) (resp : response)
    (body : string) (e : exn) :
  argv ≠ [] → positional_only argv = true →
  build_weather_query env argv = Ok url →
  urlopen env url = Ok resp → read resp = Ok body →
  json_loads env body = Raise e →
  (e = JSONDecodeError →
     (∀ s, get_weather_data env url s =
             (mk_state (stdout s) (stderr s) (requests s ++ [url]),
              Raise (SystemExit (ExitMessage "Couldn't read the server response."))))
     ∧ run env argv =
         mk_process [] [ErrMessage "Couldn't read the server response."] 1 [url]
     ∧ clean_termination (run env argv))
  ∧ (e ≠ JSONDecodeError → is_error e →
     (∀ s, get_weather_data env url s =
             (mk_state (stdout s) (stderr s) (requests s ++ [url]), Raise e))
     ∧ run env argv = mk_process [] [ErrTraceback e] 1 [url]
     ∧ unhandled_crash (run env argv)).
Proof.
  intros Hne _ Hurl Hnet Hread Hjson. split.
  - intros ->.
    pose proof (fun s => get_weather_data_malformed env url resp body s Hnet Hread Hjson)
      as Hget.
    assert (Hrun : run env argv =
              mk_process [] [ErrMessage "Couldn't read the server response."] 1 [url]).
    { rewrite (run_stops_at_request env argv url _ _ Hne Hurl (Hget _)). reflexivity. }
    split; [exact Hget|]. split; [exact Hrun|].
    rewrite Hrun. split; [eexists; reflexivity | discriminate].
  - intros Hother He.
    pose proof (fun s => get_weather_data_undecoded env url resp body e s
                           Hnet Hread Hjson Hother) as Hget.
    assert (Hrun : run env argv = mk_process [] [ErrTraceback e] 1 [url]).
    { rewrite (run_stops_at_request env argv url _ _ Hne Hurl (Hget _)).
      destruct e; try reflexivity. destruct He. }
    split; [exact Hget|]. split; [exact Hrun|].
    rewrite Hrun. exists e. reflexivity.
Qed.

(** C7, as amended, for a 200 response with an HTML body and for one
    with a body that is not UTF-8. *)
Lemma html_and_non_utf8_bodies :
  ["london"] ≠ [] ∧ positional_only ["london"] = true
  ∧ build_weather_query env_malformed ["london"] = Ok london_url
  ∧ urlopen env_malformed london_url = Ok (mk_response 200 (Ok "<html>"))
  ∧ json_loads env_malformed "<html>" = Raise JSONDecodeError
  ∧ run env_malformed ["london"] =
      mk_process [] [ErrMessage "Couldn't read the server response."] 1 [london_url]
  ∧ build_weather_query env_not_utf8 ["london"] = Ok london_url
  ∧ urlopen env_not_utf8 london_url = Ok (mk_response 200 (Ok byte_255))
  ∧ json_loads env_not_utf8 byte_255 = Raise UnicodeDecodeError
  ∧ UnicodeDecodeError ≠ JSONDecodeError ∧ is_error UnicodeDecodeError
  ∧ run env_not_utf8 ["london"] =
      mk_process [] [ErrTraceback UnicodeDecodeError] 1 [london_url].
Proof.
  assert (Hne : ["london"] ≠ []) by discriminate.
  assert (Hother : UnicodeDecodeError ≠ JSONDecodeError) by discriminate.
  pose proof (undecodable_body_exits_or_propagates env_malformed ["london"]
                london_url (mk_response 200 (Ok "<html>")) "<html>" JSONDecodeError
                Hne eq_refl eq_refl eq_refl eq_refl eq_refl) as [Hmsg _].
  pose proof (undecodable_body_exits_or_propagates env_not_utf8 ["london"]
                london_url (mk_response 200 (Ok byte_255)) byte_255
                UnicodeDecodeError
                Hne eq_refl eq_refl eq_refl eq_refl eq_refl) as [_ Htrace].
  split; [exact Hne|]. split; [reflexivity|]. split; [reflexivity|].
  split; [reflexivity|]. split; [reflexivity|].
  split; [exact (proj1 (proj2 (Hmsg eq_refl)))|].
  split; [reflexivity|]. split; [reflexivity|]. split; [reflexivity|].
  split; [exact Hother|]. split; [exact I|].
  exact (proj1 (proj2 (Htrace Hother I))).
Defined.

(** C7, the claim as stated fails: a 200 response whose body is not UTF-8
    fails to parse, [json.loads] raises [UnicodeDecodeError], which the
    handler of [JSONDecodeError] does not catch, and the run ends in a
    traceback without the message. *)
Lemma non_utf8_body_ends_in_traceback :
  run env_not_utf8 ["london"]
    = mk_process [] [ErrTraceback UnicodeDecodeError] 1 [london_url]
  ∧ urlopen env_not_utf8 london_url = Ok (mk_response 200 (Ok byte_255))
  ∧ json_loads env_not_utf8 byte_255 = Raise UnicodeDecodeError
  ∧ unhandled_crash (run env_not_utf8 ["london"])
  ∧ ¬ clean_termination (run env_not_utf8 ["london"])
  ∧ ErrMessage "Couldn't read the server response."
      ∉ p_stderr (run env_not_utf8 ["london"]).
Proof.
  split; [reflexivity|]. split; [reflexivity|]. split; [reflexivity|].
  split; [|split].
  - exists UnicodeDecodeError. reflexivity.
  - intros [[msg Hmsg] _]. discriminate Hmsg.
  - intros H. apply list_elem_of_singleton in H. discriminate H.
Qed.

(** ** The display formatter *)

Lemma get_weather_data_ok
    (env : Env) (url : string) (resp : response) (body : string) (data : value)
    (s : state) :
  urlopen env url = Ok resp → read resp = Ok body → json_loads env body = Ok data →
  get_weather_data env url s =
    (mk_state (stdout s) (stderr s) (requests s ++ [url]), Ok data).
Proof.
  intros Hnet Hread Hjson.
  unfold get_weather_data, try_except, request_urlopen, mbind at 1, M_bind at 1.
  rewrite Hnet. rewrite (lift_ok _ _ _ body Hread).
  unfold lift at 1. rewrite Hjson. reflexivity.
Qed.

(** With a code the first five tables do not list, the formatter prints
    the head of the line and then the classifier raises. *)
Lemma display_stops_after_head
    (env : Env) (data name text temperature : value) (code : Z) (s : state) :
  has_fields data name text temperature (VInt code) →
  code ∉ first_five_codes →
  display_weather_info env data s =
    (mk_state (stdout s ++ line_head env name) (stderr s) (requests s),
     Raise TypeError).
Proof.
  intros (Hname & Htext & Htemp & Hcode) Hnot.
  pose proof (outside_first_five_raises code Hnot) as Hcls.
  unfold display_weather_info.
  rewrite (lift_ok _ _ _ name Hname), (lift_ok _ _ _ name Hname).
  rewrite (lift_ok _ _ _ text Htext), (lift_ok _ _ _ temperature Htemp).
  rewrite (lift_ok _ _ _ (VInt code) Hcode).
  unfold mbind, M_bind, change_color, print, lift. cbn [stdout stderr requests].
  rewrite Hcls. unfold line_head.
  rewrite <- !app_assoc, append_empty_r. cbn [app]. reflexivity.
Qed.

(** X2: with the four fields present, a [str] condition text and a code
    the classifier answers for, the formatter prints the whole line and
    nothing else: head, glyph in the colour of the table, capitalised
    condition centred in the field, temperature. *)
Lemma display_prints_full_line
    (env : Env) (data name temperature code : value) (text glyph : string)
    (color : style_token) (s : state) :
  has_fields data name (VStr text) temperature code →
  _select_weather_display_params code = Ok (glyph, color) →
  display_weather_info env data s =
    (mk_state (stdout s ++ full_line env name text temperature glyph color)
       (stderr s) (requests s),
     Ok tt).
Proof.
  intros (Hname & Htext & Htemp & Hcode) Hcls.
  unfold display_weather_info.
  rewrite (lift_ok _ _ _ name Hname), (lift_ok _ _ _ name Hname).
  rewrite (lift_ok _ _ _ (VStr text) Htext), (lift_ok _ _ _ temperature Htemp).
  rewrite (lift_ok _ _ _ code Hcode).
  unfold mbind, M_bind, change_color, print, lift. cbn [stdout stderr requests].
  rewrite Hcls. cbn [capitalize stdout stderr requests].
  unfold full_line, line_head.
  rewrite <- !app_assoc, append_empty_r. cbn [app]. reflexivity.
Qed.

(** X2 for a snowy Oslo: the line as the terminal shows it. *)
Lemma oslo_line_is_complete :
  has_fields oslo (VStr "Oslo") (VStr "light snow") (VInt (-3)) (VInt 1213)
  ∧ _select_weather_display_params (VInt 1213) = Ok ("⛄️", WHITE)
  ∧ display_weather_info env_oslo oslo initial_state =
      (mk_state
         (full_line env_oslo (VStr "Oslo") "light snow" (VInt (-3)) "⛄️" WHITE)
         [] [],
       Ok tt)
  ∧ stdout_text
      (full_line env_oslo (VStr "Oslo") "light snow" (VInt (-3)) "⛄️" WHITE)
    = "Oslo (Oslo)" +:+ tab +:+ "⛄️      Light snow      (-3°C)" +:+ newline.
Proof.
  assert (Hf : has_fields oslo (VStr "Oslo") (VStr "light snow") (VInt (-3))
                 (VInt 1213)) by (repeat split; reflexivity).
  split; [exact Hf|]. split; [reflexivity|]. split; [|reflexivity].
  apply (display_prints_full_line env_oslo oslo (VStr "Oslo") (VInt (-3))
           (VInt 1213) "light snow" "⛄️" WHITE initial_state Hf).
  reflexivity.
Defined.

(** C9 (the code departs from the claim): output is not all-or-nothing.
    When the decoded response carries its four fields and a condition code
    outside the first five tables (the Sunny value, a Cloudy code or an
    unknown code), the run prints the head of the line, [city (region)],
    and then ends with the traceback of the classifier's [TypeError]: the
    glyph, condition and temperature segments never appear. *)
Theorem sunny_response_prints_partial_line
    (env : Env) (argv : list string) (url : string) (resp : response)
    (body : string) (data name text temperature : value) (code : Z) :
  argv ≠ [] → build_weather_query env argv = Ok url →
  urlopen env url = Ok resp → read resp = Ok body → json_loads env body = Ok data →
  has_fields data name text temperature (VInt code) →
  code ∉ first_five_codes →
  run env argv =
    mk_process (line_head env name) [ErrTraceback TypeError] 1 [url].
Proof.
  intros Hne Hurl Hnet Hread Hjson Hfields Hcode. unfold run.
  rewrite (main_from_url env argv url _ Hne Hurl).
  rewrite (bind_ok _ _ _ _ _ (get_weather_data_ok env url resp body data _
                                Hnet Hread Hjson)).
  rewrite (display_stops_after_head env data name text temperature code _
             Hfields Hcode).
  reflexivity.
Qed.

(** C9 for the Paris response of the specification. *)
Lemma paris_response_prints_partial_line :
  ["paris"] ≠ []
  ∧ json_loads env_paris paris_body = Ok paris
  ∧ has_fields paris (VStr "Paris") (VStr "Clear") (VInt 22) (VInt 1000)
  ∧ (1000 ∉ first_five_codes)
  ∧ run env_paris ["paris"] =
      mk_process
        [OutStyle REVERSE; OutText "Paris (Paris)"; OutStyle RESET]
        [ErrTraceback TypeError] 1
        ["http://api.weatherapi.com/v1/current.json?key=KEY&q=paris"].
Proof.
  assert (Hf : has_fields paris (VStr "Paris") (VStr "Clear") (VInt 22) (VInt 1000))
    by (repeat split; reflexivity).
  assert (Hc : 1000 ∉ first_five_codes).
  { apply (bool_decide_unpack (1000 ∉ first_five_codes)). vm_compute. exact I. }
  split; [discriminate|]. split; [reflexivity|]. split; [exact Hf|].
  split; [exact Hc|].
  apply (sunny_response_prints_partial_line env_paris ["paris"]
           "http://api.weatherapi.com/v1/current.json?key=KEY&q=paris"
           (mk_response 200 (Ok paris_body)) paris_body paris
           (VStr "Paris") (VStr "Clear") (VInt 22) 1000);
    [discriminate | reflexivity | reflexivity | reflexivity | reflexivity
    | exact Hf | exact Hc].
Defined.

(** ** Every way the classifier and the formatter can end *)

(** Whatever the value, the classifier answers with one of the first five
    pairs or raises [TypeError] at the [SUNNY] test. *)
Lemma classifier_cases (weather_id : value) :
  (∃ p, p ∈ first_five_pairs ∧ _select_weather_display_params weather_id = Ok p)
  ∨ _select_weather_display_params weather_id = Raise TypeError.
Proof.
  unfold _select_weather_display_params, THUNDERSTORM, DRIZZLE, RAIN, SNOW,
    ATMOSPHERE, SUNNY, py_in, first_five_pairs.
  repeat (rewrite result_bind_ok;
          destruct (existsb _ _);
          [left; eexists; split; [|reflexivity]; rewrite !elem_of_cons; tauto|]).
  right. reflexivity.
Qed.

Lemma getitem_lookup_error (v : value) (key : string) (e : exn) :
  getitem v key = Raise e → lookup_error e.
Proof.
  unfold lookup_error.
  destruct v; cbn [getitem]; try (intros [= <-]; now left).
  destruct (dict_get key d); intros [= <-]. right. now exists key.
Qed.

Lemma bind_lookup_error (r : result value) (f : value → result value) (e : exn) :
  (∀ e', r = Raise e' → lookup_error e') →
  (∀ v e', f v = Raise e' → lookup_error e') →
  r ≫= f = Raise e → lookup_error e.
Proof.
  intros Hr Hf. destruct r as [v|e0].
  - rewrite result_bind_ok. apply Hf.
  - rewrite result_bind_raise. intros [= <-]. now apply Hr.
Qed.

(** With its four fields found, the formatter prints the head, asks the
    classifier, prints the glyph, capitalises the condition and prints the
    rest; it stops where one of the two raises. *)
Lemma display_on_fields
    (env : Env) (data name text temperature code : value) (s : state) :
  has_fields data name text temperature code →
  display_weather_info env data s =
    match _select_weather_display_params code with
    | Raise e => (with_output s (line_head env name), Raise e)
    | Ok (glyph, color) =>
        match capitalize env text with
        | Raise e =>
            (with_output s (line_head env name ++ glyph_segment glyph color),
             Raise e)
        | Ok capitalized =>
            (with_output s
               (line_head env name ++ glyph_segment glyph color ++
                [OutText (format_center capitalized (PADDING env) +:+ " ");
                 OutStyle RESET;
                 OutText (("(" +:+ py_str env temperature +:+ "°" +:+ "C" +:+ ")")
                          +:+ newline)]),
             Ok tt)
        end
    end.
Proof.
  intros (Hname & Htext & Htemp & Hcode).
  unfold display_weather_info.
  rewrite (lift_ok _ _ _ name Hname), (lift_ok _ _ _ name Hname).
  rewrite (lift_ok _ _ _ text Htext), (lift_ok _ _ _ temperature Htemp).
  rewrite (lift_ok _ _ _ code Hcode).
  unfold mbind, M_bind, change_color, print, lift, with_output.
  cbn [stdout stderr requests].
  destruct (_select_weather_display_params code) as [[glyph color]|e].
  - cbn [stdout stderr requests].
    destruct (capitalize env text) as [capitalized|e];
      cbn [stdout stderr requests]; unfold line_head, glyph_segment;
      rewrite <- !app_assoc, append_empty_r; reflexivity.
  - unfold line_head. rewrite <- !app_assoc, append_empty_r. reflexivity.
Qed.

Lemma display_cases (env : Env) (data : value) (s : state) :
  display_outcome env data s (display_weather_info env data s).
Proof.
  destruct (location ← getitem data "location"; getitem location "name")
    as [name|e] eqn:Hname.
  2: { unfold display_weather_info. rewrite (lift_raise _ _ _ e Hname).
       apply stops_at_fields.
       - intros (n & t & te & c & H & _). congruence.
       - revert Hname. apply bind_lookup_error; eauto using getitem_lookup_error. }
  destruct (current ← getitem data "current";
            cond ← getitem current "condition";
            getitem cond "text") as [text|e] eqn:Htext.
  2: { unfold display_weather_info.
       rewrite (lift_ok _ _ _ name Hname), (lift_ok _ _ _ name Hname).
       rewrite (lift_raise _ _ _ e Htext).
       apply stops_at_fields.
       - intros (n & t & te & c & _ & H & _). congruence.
       - revert Htext. apply bind_lookup_error; [eauto using getitem_lookup_error|].
         intros v e'. apply bind_lookup_error; eauto using getitem_lookup_error. }
  destruct (current ← getitem data "current"; getitem current "temp_c")
    as [temperature|e] eqn:Htemp.
  2: { unfold display_weather_info.
       rewrite (lift_ok _ _ _ name Hname), (lift_ok _ _ _ name Hname).
       rewrite (lift_ok _ _ _ text Htext), (lift_raise _ _ _ e Htemp).
       apply stops_at_fields.
       - intros (n & t & te & c & _ & _ & H & _). congruence.
       - revert Htemp. apply bind_lookup_error; eauto using getitem_lookup_error. }
  destruct (current ← getitem data "current";
            cond ← getitem current "condition";
            getitem cond "code") as [code|e] eqn:Hcode.
  2: { unfold display_weather_info.
       rewrite (lift_ok _ _ _ name Hname), (lift_ok _ _ _ name Hname).
       rewrite (lift_ok _ _ _ text Htext), (lift_ok _ _ _ temperature Htemp).
       rewrite (lift_raise _ _ _ e Hcode).
       apply stops_at_fields.
       - intros (n & t & te & c & _ & _ & _ & H). congruence.
       - revert Hcode. apply bind_lookup_error; [eauto using getitem_lookup_error|].
         intros v e'. apply bind_lookup_error; eauto using getitem_lookup_error. }
  assert (Hf : has_fields data name text temperature code) by (repeat split; assumption).
  rewrite (display_on_fields env data name text temperature code s Hf).
  destruct (classifier_cases code) as [([glyph color] & _ & Hcls)|Hcls]; rewrite Hcls.
  - destruct text; cbn [capitalize];
      try (eapply stops_after_glyph; [exact Hf | exact Hcls | intros t; discriminate]).
    eapply prints_full_line; [exact Hf | exact Hcls].
  - eapply stops_after_head; [exact Hf | exact Hcls].
Qed.

(** X3: for every value, not only for ints, the classifier returns one of
    the first five pairs or raises [TypeError]; the Sunny pair, the Cloudy
    pair and the fallback pair are never returned. *)
Theorem classifier_never_reaches_last_three_branches (weather_id : value) :
  (∀ p, _select_weather_display_params weather_id = Ok p → p ∈ first_five_pairs)
  ∧ (∀ e, _select_weather_display_params weather_id = Raise e → e = TypeError)
  ∧ _select_weather_display_params weather_id ≠ Ok ("🔆", YELLOW)
  ∧ _select_weather_display_params weather_id ≠ Ok ("💨", WHITE)
  ∧ _select_weather_display_params weather_id ≠ Ok ("🌈", RESET).
Proof.
  assert (Hin : ∀ p, _select_weather_display_params weather_id = Ok p →
                     p ∈ first_five_pairs).
  { intros p Hp. destruct (classifier_cases weather_id) as [(q & Hq & E)|E];
      congruence. }
  assert (Hout : ∀ p, p ∉ first_five_pairs →
                      _select_weather_display_params weather_id ≠ Ok p).
  { intros p Hp E. apply Hp, Hin, E. }
  split; [exact Hin|]. split.
  - intros e He. destruct (classifier_cases weather_id) as [(q & Hq & E)|E];
      congruence.
  - repeat split; apply Hout; unfold first_five_pairs;
      rewrite !not_elem_of_cons; repeat split;
      try discriminate; apply not_elem_of_nil.
Qed.



(** X5: when the four fields are there, the classifier answers and the
    condition text is not a [str] (JSON null, a number), the formatter has
    printed the head and the glyph segment when [capitalize] raises
    [AttributeError]: the condition and the temperature are never
    printed. *)
Theorem non_text_condition_stops_after_glyph
    (env : Env) (data name text temperature code : value)
    (glyph : string) (color : style_token) (s : state) :
  has_fields data name text temperature code →
  _select_weather_display_params code = Ok (glyph, color) →
  (∀ t, text ≠ VStr t) →
  display_weather_info env data s =
    (with_output s (line_head env name ++ glyph_segment glyph color),
     Raise AttributeError).
Proof.
  intros Hf Hcls Htext.
  rewrite (display_on_fields env data name text temperature code s Hf), Hcls.
  destruct text; try reflexivity. elim (Htext s0). reflexivity.
Qed.

(** X5 for a null condition text. *)
Lemma null_text_stops_after_glyph :
  has_fields lima_null_text (VStr "Lima") VNone (VInt 19) (VInt 1087)
  ∧ _select_weather_display_params (VInt 1087) = Ok ("💥", RED)
  ∧ (∀ t, VNone ≠ VStr t)
  ∧ display_weather_info env_paris lima_null_text initial_state =
      (mk_state [OutStyle REVERSE; OutText "Lima (Lima)"; OutStyle RESET;
                 OutStyle RED; OutText (tab +:+ "💥 ")] [] [],
       Raise AttributeError).
Proof.
  assert (Hf : has_fields lima_null_text (VStr "Lima") VNone (VInt 19) (VInt 1087))
    by (repeat split; reflexivity).
  assert (Ht : ∀ t, VNone ≠ VStr t) by (intros t; discriminate).
  split; [exact Hf|]. split; [reflexivity|]. split; [exact Ht|].
  apply (non_text_condition_stops_after_glyph env_paris lima_null_text
           (VStr "Lima") VNone (VInt 19) (VInt 1087) "💥" RED initial_state
           Hf eq_refl Ht).
Defined.

(** ** Every way a run can end *)

Lemma exit_process_stdout (s : state) (r : result unit) :
  p_stdout (exit_process s r) = stdout s.
Proof. destruct r as [u|[| | | | | | | |[msg|n]]]; reflexivity. Qed.

Lemma exit_process_error (s : state) (e : exn) :
  is_error e →
  exit_process s (Raise e) =
    mk_process (stdout s) (stderr s ++ [ErrTraceback e]) 1 (requests s).
Proof. destruct e; try reflexivity. intros []. Qed.

(** The configuration reader raises errors only: [KeyError] or an error
    of [ConfigParser]. *)
Lemma get_api_key_raises_error (env : Env) (e : exn) :
  _get_api_key env = Raise e → is_error e.
Proof.
  unfold _get_api_key, mapping_getitem, option_get.
  destruct (secrets_ini env) as [|error_class|cfg]; cbn [config_read].
  - rewrite result_bind_ok, lookup_empty, result_bind_raise.
    intros [= <-]. exact I.
  - rewrite result_bind_raise. intros [= <-]. exact I.
  - rewrite result_bind_ok. destruct (cfg !! "weatherapi") as [section|].
    + rewrite result_bind_ok. destruct (section !! "api_key") as [[v|c]|].
      * rewrite result_bind_ok. discriminate.
      * rewrite result_bind_ok. intros [= <-]. exact I.
      * rewrite result_bind_raise. intros [= <-]. exact I.
    + rewrite result_bind_raise. intros [= <-]. exact I.
Qed.

(** A run stops at the command line, at the configuration or at the
    request, or it is the formatter run on the decoded response. *)
Lemma main_cases (env : Env) (argv : list string) :
  (argv = []
   ∧ main env argv initial_state
     = (mk_state [] [ErrUsage] [], Raise (SystemExit (ExitStatus 2))))
  ∨ (argv ≠ []
     ∧ ∃ e, _get_api_key env = Raise e ∧ is_error e
            ∧ main env argv initial_state = (initial_state, Raise e))
  ∨ (argv ≠ []
     ∧ ∃ key, _get_api_key env = Ok key
        ∧ ((∃ e, get_weather_data env (query_url_of key (str_join " " argv))
                   initial_state
                 = (mk_state [] [] [query_url_of key (str_join " " argv)], Raise e)
               ∧ main env argv initial_state
                 = (mk_state [] [] [query_url_of key (str_join " " argv)], Raise e))
           ∨ (∃ data, get_weather_data env (query_url_of key (str_join " " argv))
                        initial_state
                      = (mk_state [] [] [query_url_of key (str_join " " argv)], Ok data)
                 ∧ main env argv initial_state
                   = display_weather_info env data
                       (mk_state [] [] [query_url_of key (str_join " " argv)])))).
Proof.
  destruct argv as [|t ts]; [left; split; reflexivity|]. right.
  assert (Hne : t :: ts ≠ []) by discriminate.
  destruct (_get_api_key env) as [key|e] eqn:Hkey.
  - right. split; [exact Hne|]. exists key. split; [reflexivity|].
    pose proof (build_weather_query_ok env (t :: ts) key Hkey) as Hurl.
    fold (query_url_of key (str_join " " (t :: ts))) in Hurl.
    rewrite (main_from_url env _ _ initial_state Hne Hurl).
    pose proof (get_weather_data_one_request env
                  (query_url_of key (str_join " " (t :: ts))) initial_state) as Hs.
    destruct (get_weather_data env _ initial_state) as [s1 [data|e]] eqn:Hget;
      cbn [fst] in Hs; subst s1; cbn [stdout stderr requests initial_state app].
    + right. exists data. split; [reflexivity|].
      now rewrite (bind_ok _ _ _ _ _ Hget).
    + left. exists e. split; [reflexivity|].
      now rewrite (bind_raise _ _ _ _ _ Hget).
  - left. split; [exact Hne|].
    exists e. split; [reflexivity|].
    split; [exact (get_api_key_raises_error env e Hkey)|].
    apply main_stops_at_query; [exact Hne|].
    now apply build_weather_query_raise.
Qed.

(** When the libraries raise errors only, what leaves [get_weather_data]
    is an error or the exit of the JSON handler. *)
Lemma get_weather_data_raise_cases
    (env : Env) (url : string) (s s' : state) (e : exn) :
  libraries_do_not_exit env →
  get_weather_data env url s = (s', Raise e) →
  e = SystemExit (ExitMessage "Couldn't read the server response.") ∨ is_error e.
Proof.
  intros (Hnet & Hread & Hjson).
  unfold get_weather_data, try_except, request_urlopen, sys_exit, lift,
    mbind, M_bind.
  destruct (urlopen env url) as [resp|e0] eqn:Eu.
  - destruct (read resp) as [body|e1] eqn:Er.
    + destruct (json_loads env body) as [v|e2] eqn:Ej; [discriminate|].
      pose proof (Hjson _ _ Ej) as He2.
      destruct e2; intros [= _ <-]; auto.
    + intros [= _ <-]. right. eapply Hread; eauto.
  - pose proof (Hnet _ _ Eu) as He0.
    destruct e0; intros [= _ <-]; auto.
Qed.

(** The result of a run whose libraries raise errors only. *)
Lemma main_result_cases (env : Env) (argv : list string) (s : state)
    (r : result unit) :
  libraries_do_not_exit env →
  main env argv initial_state = (s, r) →
  (argv = [] ∧ r = Raise (SystemExit (ExitStatus 2)) ∧ stderr s = [ErrUsage])
  ∨ (argv ≠ [] ∧ stderr s = []
     ∧ (r = Ok tt
        ∨ r = Raise (SystemExit (ExitMessage "Couldn't read the server response."))
        ∨ ∃ e, is_error e ∧ r = Raise e)).
Proof.
  intros Hlib Hmain.
  destruct (main_cases env argv)
    as [[-> E]|[(Hne & e0 & _ & He0 & E)|(Hne & key & _ & [(e & Hget & E)|(data & _ & E)])]];
    rewrite E in Hmain.
  - injection Hmain as <- <-. left. repeat split.
  - injection Hmain as <- <-. right. repeat split; [exact Hne|].
    right. right. exists e0. split; [exact He0 | reflexivity].
  - injection Hmain as <- <-. right. repeat split; [exact Hne|].
    destruct (get_weather_data_raise_cases env _ _ _ e Hlib Hget) as [->|He].
    + right. left. reflexivity.
    + right. right. exists e. split; [exact He | reflexivity].
  - right. split; [exact Hne|].
    pose proof (display_cases env data
                  (mk_state [] [] [query_url_of key (str_join " " argv)])) as Hd.
    rewrite Hmain in Hd.
    inversion Hd as [e _ He|n t te c Hf|n t te c g col Hf|n te c t g col Hf];
      subst; cbn [stderr with_output]; split; try reflexivity.
    + right. right. exists e. split; [|reflexivity].
      destruct He as [->|[k ->]]; exact I.
    + right. right. exists TypeError. split; [exact I | reflexivity].
    + right. right. exists AttributeError. split; [exact I | reflexivity].
    + left. reflexivity.
Qed.

(** What a run has printed when it ends: the whole line when it returns,
    at most the head and the glyph when it raises. *)
Lemma main_stdout_cases (env : Env) (argv : list string) (s : state)
    (r : result unit) :
  main env argv initial_state = (s, r) →
  (r = Ok tt ∧ argv ≠ []
   ∧ ∃ key name text temperature glyph color,
       _get_api_key env = Ok key
       ∧ s = mk_state (full_line env name text temperature glyph color) []
               [query_url_of key (str_join " " argv)])
  ∨ ((∃ e, r = Raise e)
     ∧ (stdout s = []
        ∨ ∃ name, stdout s = line_head env name
                  ∨ ∃ glyph color,
                      stdout s = line_head env name ++ glyph_segment glyph color)).
Proof.
  intros Hmain.
  destruct (main_cases env argv)
    as [[-> E]|[(Hne & e0 & _ & _ & E)|(Hne & key & Hkey & [(e & _ & E)|(data & _ & E)])]];
    rewrite E in Hmain.
  - injection Hmain as <- <-. right. split; [eauto | now left].
  - injection Hmain as <- <-. right. split; [eauto | now left].
  - injection Hmain as <- <-. right. split; [eauto | now left].
  - pose proof (display_cases env data
                  (mk_state [] [] [query_url_of key (str_join " " argv)])) as Hd.
    rewrite Hmain in Hd.
    inversion Hd as [e _ He|n t te c Hf|n t te c g col Hf|n te c t g col Hf]; subst.
    + right. split; [eauto | now left].
    + right. split; [eauto|]. right. exists n. now left.
    + right. split; [eauto|]. right. exists n. right. now exists g, col.
    + left. split; [reflexivity|]. split; [exact Hne|].
      exists key, n, t, te, g, col. split; [exact Hkey | reflexivity].
Qed.

(** X6: a run whose command line has no option token calls [urlopen] at
    most once: not at all when there is no city token or the api key
    cannot be read, and otherwise once, on the URL built from the key and
    the tokens joined by spaces. *)
Theorem run_calls_urlopen_at_most_once (env : Env) (argv : list string) :
  positional_only argv = true →
  (p_requests (run env argv) = []
   ∧ (argv = [] ∨ ∃ e, _get_api_key env = Raise e))
  ∨ (∃ key, argv ≠ [] ∧ _get_api_key env = Ok key
            ∧ p_requests (run env argv) = [query_url_of key (str_join " " argv)]).
Proof.
  intros _. rewrite run_requests.
  destruct (main_cases env argv)
    as [[-> E]|[(Hne & e0 & Hkey & _ & E)|(Hne & key & Hkey & [(e & _ & E)|(data & _ & E)])]];
    rewrite E; cbn [fst requests].
  - left. split; [reflexivity | now left].
  - left. split; [reflexivity | right; now exists e0].
  - right. exists key. repeat split; assumption.
  - right. exists key. repeat split; try assumption.
    apply display_keeps_requests.
Qed.

(** X6 for a secrets.ini that does not parse, and for the Oslo run. *)
Lemma unparsable_secrets_call_urlopen_never :
  positional_only ["oslo"] = true
  ∧ _get_api_key env_unparsable_secrets = Raise (OtherError "MissingSectionHeaderError")
  ∧ p_requests (run env_unparsable_secrets ["oslo"]) = []
  ∧ p_requests (run env_oslo ["oslo"])
    = ["http://api.weatherapi.com/v1/current.json?key=KEY&q=oslo"]
  ∧ ((p_requests (run env_oslo ["oslo"]) = []
      ∧ (["oslo"] = [] ∨ ∃ e, _get_api_key env_oslo = Raise e))
     ∨ (∃ key, ["oslo"] ≠ [] ∧ _get_api_key env_oslo = Ok key
               ∧ p_requests (run env_oslo ["oslo"])
                 = [query_url_of key (str_join " " ["oslo"])])).
Proof.
  split; [reflexivity|]. split; [reflexivity|]. split; [reflexivity|].
  split; [reflexivity|].
  exact (run_calls_urlopen_at_most_once env_oslo ["oslo"] eq_refl).
Defined.



Lemma full_line_is_not_partial
    (env : Env) (name name' temperature : value) (text glyph glyph' : string)
    (color color' : style_token) :
  full_line env name text temperature glyph color ≠ []
  ∧ full_line env name text temperature glyph color ≠ line_head env name'
  ∧ full_line env name text temperature glyph color
      ≠ line_head env name' ++ glyph_segment glyph' color'.
Proof.
  repeat split; intros H; apply (f_equal length) in H; discriminate H.
Qed.

(** X9: for a command line without option tokens, and when the
    libraries raise errors only, the exit status tells the outcome: it is 2
    exactly when the command line has no city token, 0 exactly when the
    complete line is on standard output, and 1 in every other case. *)
Theorem exit_status_tells_the_outcome (env : Env) (argv : list string) :
  positional_only argv = true →
  libraries_do_not_exit env →
  (p_status (run env argv) = 2 ↔ argv = [])
  ∧ (p_status (run env argv) = 0
     ↔ ∃ name text temperature glyph color,
         p_stdout (run env argv) = full_line env name text temperature glyph color)
  ∧ (p_status (run env argv) = 0 ∨ p_status (run env argv) = 1
     ∨ p_status (run env argv) = 2).
Proof.
  intros _ Hlib. unfold run.
  destruct (main env argv initial_state) as [s r] eqn:Hmain.
  rewrite exit_process_stdout.
  pose proof (main_stdout_cases env argv s r Hmain) as Hout.
  assert (Hpartial : (∃ e, r = Raise e) →
            ¬ ∃ name text temperature glyph color,
                stdout s = full_line env name text temperature glyph color).
  { intros He (n & t & te & g & col & Hfull).
    destruct Hout as [(-> & _)|(_ & [H|(n' & [H|(g' & col' & H)])])].
    - destruct He as [e He]. discriminate He.
    - rewrite H in Hfull. symmetry in Hfull.
      now apply (full_line_is_not_partial env n n te t g g col col) in Hfull.
    - rewrite H in Hfull. symmetry in Hfull.
      now apply (full_line_is_not_partial env n n' te t g g col col) in Hfull.
    - rewrite H in Hfull. symmetry in Hfull.
      now apply (full_line_is_not_partial env n n' te t g g' col col') in Hfull. }
  assert (Hfull : r = Ok tt →
            ∃ name text temperature glyph color,
              stdout s = full_line env name text temperature glyph color).
  { intros ->.
    destruct Hout as [(_ & _ & key & n & t & te & g & col & _ & ->)|((e & He) & _)];
      [|discriminate He].
    now exists n, t, te, g, col. }
  destruct (main_result_cases env argv s r Hlib Hmain)
    as [(-> & -> & _)|(Hne & _ & [->|[->|(e & He & ->)]])];
    [| | |rewrite (exit_process_error s e He)];
    cbn [exit_process p_status].
  - split; [tauto|]. split; [|auto].
    split; [discriminate|]. intros H. elim Hpartial; [eauto | exact H].
  - split; [split; [discriminate | intros ->; now elim Hne]|].
    split; [|auto]. split; [intros _; now apply Hfull | reflexivity].
  - split; [split; [discriminate | intros ->; now elim Hne]|].
    split; [|auto].
    split; [discriminate|]. intros H. elim Hpartial; [eauto | exact H].
  - split; [split; [discriminate | intros ->; now elim Hne]|].
    split; [|auto].
    split; [discriminate|]. intros H. elim Hpartial; [eauto | exact H].
Qed.

Lemma sample_libraries_do_not_exit
    (secrets : config_file)
    (answer : result response) (decoded : result value) :
  (∀ e, answer = Raise e → is_error e) →
  (∀ resp e, answer = Ok resp → read resp = Raise e → is_error e) →
  (∀ e, decoded = Raise e → is_error e) →
  libraries_do_not_exit (sample_env secrets answer decoded).
Proof.
  intros Ha Hr Hd. repeat split; cbn [sample_env urlopen json_loads]; eauto.
Qed.

(** X9 for the Oslo run, which ends with status 0. *)
Lemma oslo_run_exits_with_status_0 :
  positional_only ["oslo"] = true
  ∧ libraries_do_not_exit env_oslo
  ∧ p_status (run env_oslo ["oslo"]) = 0
  ∧ (p_status (run env_oslo ["oslo"]) = 2 ↔ ["oslo"] = [])
  ∧ (p_status (run env_oslo ["oslo"]) = 0
     ↔ ∃ name text temperature glyph color,
         p_stdout (run env_oslo ["oslo"])
         = full_line env_oslo name text temperature glyph color)
  ∧ (p_status (run env_oslo ["oslo"]) = 0 ∨ p_status (run env_oslo ["oslo"]) = 1
     ∨ p_status (run env_oslo ["oslo"]) = 2).
Proof.
  assert (Hlib : libraries_do_not_exit env_oslo).
  { apply sample_libraries_do_not_exit.
    - intros e H. discriminate H.
    - intros resp e [= <-] H. discriminate H.
    - intros e H. discriminate H. }
  split; [reflexivity|]. split; [exact Hlib|]. split; [reflexivity|].
  exact (exit_status_tells_the_outcome env_oslo ["oslo"] eq_refl Hlib).
Defined.

(** X10: when the libraries raise errors only, the one message the program
    ever prints on standard error is "Couldn't read the server response.":
    no run prints "Access denied", "Can't find weather data" or "Something
    went wrong". *)
Theorem only_message_is_unreadable_response
    (env : Env) (argv : list string) (msg : string) :
  libraries_do_not_exit env →
  ErrMessage msg ∈ p_stderr (run env argv) →
  msg = "Couldn't read the server response.".
Proof.
  intros Hlib. unfold run.
  destruct (main env argv initial_state) as [s r] eqn:Hmain.
  destruct (main_result_cases env argv s r Hlib Hmain)
    as [(_ & -> & Herr)|(_ & Herr & [->|[->|(e & He & ->)]])].
  - cbn [exit_process p_stderr]. rewrite Herr.
    intros H. apply list_elem_of_singleton in H. discriminate H.
  - cbn [exit_process p_stderr]. rewrite Herr.
    intros H. apply elem_of_nil in H. destruct H.
  - cbn [exit_process p_stderr]. rewrite Herr. cbn [app].
    intros H. apply list_elem_of_singleton in H. now injection H.
  - rewrite (exit_process_error s e He). cbn [p_stderr]. rewrite Herr. cbn [app].
    intros H. apply list_elem_of_singleton in H. discriminate H.
Qed.

(** X10 for the run on a body that is not JSON. *)
Lemma malformed_run_prints_the_one_message :
  libraries_do_not_exit env_malformed
  ∧ ErrMessage "Couldn't read the server response."
      ∈ p_stderr (run env_malformed ["london"])
  ∧ "Couldn't read the server response." = "Couldn't read the server response.".
Proof.
  assert (Hlib : libraries_do_not_exit env_malformed).
  { apply sample_libraries_do_not_exit.
    - intros e H. discriminate H.
    - intros resp e [= <-] H. discriminate H.
    - intros e [= <-]. exact I. }
  assert (Hin : ErrMessage "Couldn't read the server response."
                  ∈ p_stderr (run env_malformed ["london"])).
  { apply list_elem_of_here. }
  split; [exact Hlib|]. split; [exact Hin|].
  exact (only_message_is_unreadable_response env_malformed ["london"] _ Hlib Hin).
Defined.

(** X11: [get_weather_data] returns a value exactly when [urlopen]
    returned a response, its body was read and [json.loads] decoded it; the
    value is what [json.loads] returned, unchanged, and the only effect is
    the one request. *)
Theorem get_weather_data_returns_what_json_decodes
    (env : Env) (url : string) (s s' : state) (data : value) :
  get_weather_data env url s = (s', Ok data)
  ↔ s' = mk_state (stdout s) (stderr s) (requests s ++ [url])
    ∧ ∃ resp body, urlopen env url = Ok resp ∧ read resp = Ok body
                   ∧ json_loads env body = Ok data.
Proof.
  split.
  - intros Hget.
    pose proof (get_weather_data_one_request env url s) as Hs.
    rewrite Hget in Hs. cbn [fst] in Hs. split; [exact Hs|].
    revert Hget.
    unfold get_weather_data, try_except, request_urlopen, sys_exit, lift,
      mbind, M_bind.
    destruct (urlopen env url) as [resp|e].
    + destruct (read resp) as [body|e] eqn:Er; [|discriminate].
      destruct (json_loads env body) as [v|e] eqn:Ej.
      * intros [= _ <-]. now exists resp, body.
      * destruct e; discriminate.
    + destruct e; discriminate.
  - intros (-> & resp & body & Hnet & Hread & Hjson).
    now apply (get_weather_data_ok env url resp body).
Qed.

(** ** Characters of the query *)

Lemma contains_append (c : ascii) (a b : string) :
  contains c (a +:+ b) = contains c a || contains c b.
Proof.
  induction a as [|c' a IH]; [reflexivity|].
  change (contains c (String c' (a +:+ b))
          = contains c (String c' a) || contains c b).
  cbn [contains]. destruct (Ascii.eqb c c'); [reflexivity | exact IH].
Qed.

Lemma always_safe_is_not_space (c : ascii) :
  always_safe c = true → Ascii.eqb space c = false.
Proof.
  intros H. destruct (Ascii.eqb_spec space c) as [<-|_]; [|reflexivity].
  vm_compute in H. discriminate H.
Qed.

Lemma percent_escape_has_no_space (c : ascii) :
  contains space (percent_escape c) = false.
Proof. destruct c as [[] [] [] [] [] [] [] []]; reflexivity. Qed.

Lemma quote_all_safe (s safe : string) :
  all_chars always_safe s = true → quote s safe = s.
Proof.
  induction s as [|c s IH]; [reflexivity|]. cbn [all_chars quote].
  intros [Hc Hs]%andb_prop. rewrite Hc, (IH Hs). reflexivity.
Qed.

Lemma all_safe_has_no_space (s : string) :
  all_chars always_safe s = true → contains space s = false.
Proof.
  induction s as [|c s IH]; [reflexivity|]. cbn [all_chars contains].
  intros [Hc Hs]%andb_prop. rewrite (always_safe_is_not_space c Hc). auto.
Qed.

Lemma quote_has_no_space (s : string) :
  contains space (quote s EmptyString) = false.
Proof.
  induction s as [|c s IH]; [reflexivity|]. cbn [quote].
  rewrite contains_append, IH, orb_false_r.
  change (contains c EmptyString) with false. rewrite orb_false_r.
  destruct (always_safe c) eqn:Hc.
  - cbn [contains]. now rewrite (always_safe_is_not_space c Hc).
  - apply percent_escape_has_no_space.
Qed.

Lemma plus_for_space_has_no_space (s : string) :
  contains space
    (map_string (fun c => if Ascii.eqb c space then plus_sign else c) s) = false.
Proof.
  induction s as [|c s IH]; [reflexivity|]. cbn [map_string contains].
  rewrite IH. destruct (Ascii.eqb_spec c space) as [->|Hne].
  - reflexivity.
  - destruct (Ascii.eqb_spec space c) as [<-|_]; [now elim Hne | reflexivity].
Qed.

Lemma quote_plus_has_no_space (s : string) :
  contains space (quote_plus s) = false.
Proof.
  unfold quote_plus. destruct (contains space s); cbn [negb].
  - apply plus_for_space_has_no_space.
  - apply quote_has_no_space.
Qed.

(** X12: for a city made only of ASCII letters, digits and the characters
    [_.-~] (one token, since a space is none of them), escaping changes
    nothing: the URL the query builder returns is the URL with the
    escaped city. *)
Theorem unreserved_city_needs_no_escaping
    (env : Env) (key : string) (tokens : list string) :
  _get_api_key env = Ok key →
  all_chars always_safe (str_join " " tokens) = true →
  quote_plus (str_join " " tokens) = str_join " " tokens
  ∧ build_weather_query env tokens
    = Ok (query_url_of key (quote_plus (str_join " " tokens))).
Proof.
  intros Hkey Hsafe.
  assert (E : quote_plus (str_join " " tokens) = str_join " " tokens).
  { unfold quote_plus. rewrite (all_safe_has_no_space _ Hsafe). cbn [negb].
    now apply quote_all_safe. }
  split; [exact E|]. rewrite E. now apply build_weather_query_ok.
Qed.

(** X12 for the city london. *)
Lemma london_needs_no_escaping :
  _get_api_key env_paris = Ok "KEY"
  ∧ all_chars always_safe (str_join " " ["london"]) = true
  ∧ quote_plus (str_join " " ["london"]) = str_join " " ["london"]
  ∧ build_weather_query env_paris ["london"]
    = Ok (query_url_of "KEY" (quote_plus (str_join " " ["london"]))).
Proof.
  split; [reflexivity|]. split; [reflexivity|].
  apply (unreserved_city_needs_no_escaping env_paris "KEY" ["london"]);
    reflexivity.
Defined.

(** X13: with two or more tokens on the command line the URL the query
    builder returns contains a raw space, which the escaped city never
    does: [quote_plus] leaves no space in any string. *)
Theorem multi_word_city_puts_raw_space_in_url
    (env : Env) (key t1 t2 : string) (ts : list string) :
  _get_api_key env = Ok key →
  (∃ url, build_weather_query env (t1 :: t2 :: ts) = Ok url
          ∧ contains space url = true)
  ∧ (∀ s, contains space (quote_plus s) = false).
Proof.
  intros Hkey. split; [|exact quote_plus_has_no_space].
  eexists. split; [exact (build_weather_query_ok env _ key Hkey)|].
  change (str_join " " (t1 :: t2 :: ts))
    with (t1 +:+ " " +:+ str_join " " (t2 :: ts)).
  rewrite !contains_append.
  change (contains space " ") with true.
  rewrite !orb_true_r. reflexivity.
Qed.

(** X13 for the tokens new, york. *)
Lemma new_york_url_has_raw_space :
  _get_api_key env_paris = Ok "KEY"
  ∧ (∃ url, build_weather_query env_paris ["new"; "york"] = Ok url
            ∧ contains space url = true)
  ∧ (∀ s, contains space (quote_plus s) = false).
Proof.
  split; [reflexivity|].
  exact (multi_word_city_puts_raw_space_in_url env_paris "KEY" "new" "york" []
           eq_refl).
Defined.

(** ** The configuration and the tables *)

(** X14: [_get_api_key] returns a key exactly when secrets.ini parses,
    has the section [weatherapi] and [ConfigParser] yields that key for the
    option [api_key]; with no file or no section it raises
    [KeyError('weatherapi')], with the section and no option
    [KeyError('api_key')]; an interpolation error of the option and a
    parse error of the file leave it as they are. *)
Theorem api_key_follows_the_configuration (env : Env) (key : string) :
  (_get_api_key env = Ok key
   ↔ ∃ cfg section, secrets_ini env = Parsed cfg
       ∧ cfg !! "weatherapi" = Some section
       ∧ section !! "api_key" = Some (Value key))
  ∧ (file_missing env ∨ section_absent env →
     _get_api_key env = Raise (KeyError "weatherapi"))
  ∧ (key_absent env → _get_api_key env = Raise (KeyError "api_key"))
  ∧ (∀ cfg section error_class,
       secrets_ini env = Parsed cfg → cfg !! "weatherapi" = Some section →
       section !! "api_key" = Some (NotInterpolated error_class) →
       _get_api_key env = Raise (OtherError error_class))
  ∧ (∀ error_class,
       secrets_ini env = Unreadable error_class →
       _get_api_key env = Raise (OtherError error_class)).
Proof.
  split; [|split; [|split; [|split]]].
  - unfold _get_api_key, mapping_getitem, option_get. split.
    + destruct (secrets_ini env) as [|error_class|cfg]; cbn [config_read].
      * rewrite result_bind_ok, lookup_empty, result_bind_raise. discriminate.
      * rewrite result_bind_raise. discriminate.
      * rewrite result_bind_ok.
        destruct (cfg !! "weatherapi") as [section|] eqn:Hsec;
          [|rewrite result_bind_raise; discriminate].
        rewrite result_bind_ok.
        destruct (section !! "api_key") as [[v|c]|] eqn:Hkey;
          [|rewrite result_bind_ok; discriminate
           |rewrite result_bind_raise; discriminate].
        rewrite result_bind_ok. intros [= ->]. now exists cfg, section.
    + intros (cfg & section & -> & Hsec & Hkey). cbn [config_read].
      now rewrite result_bind_ok, Hsec, result_bind_ok, Hkey, result_bind_ok.
  - apply get_api_key_without_section.
  - apply get_api_key_without_key.
  - intros cfg section error_class Hfile Hsec Hkey.
    unfold _get_api_key, mapping_getitem, option_get. rewrite Hfile.
    cbn [config_read].
    now rewrite result_bind_ok, Hsec, result_bind_ok, Hkey, result_bind_ok.
  - intros error_class Hfile. unfold _get_api_key. rewrite Hfile. reflexivity.
Qed.

(** X15: no code is listed twice, in one table or in two: the seven
    tables are pairwise disjoint, so the order of the tests never decides
    between two tables. *)
Theorem tables_are_disjoint :
  NoDup listed_codes
  ∧ ∀ code, code ∈ first_five_codes → code ∉ members SUNNY ++ members CLOUDY.
Proof.
  assert (Hnd : NoDup listed_codes).
  { apply (bool_decide_unpack (NoDup listed_codes)). vm_compute. exact I. }
  split; [exact Hnd|].
  intros code Hin. unfold listed_codes in Hnd.
  apply NoDup_app in Hnd as (_ & Hdisjoint & _). now apply Hdisjoint.
Qed.

(** ** The condition field *)

Lemma py_len_cons (c : ascii) (s : string) :
  py_len (String c s) = (py_len (String c EmptyString) + py_len s)%nat.
Proof. cbn [py_len]. now rewrite Nat.add_0_r. Qed.

Lemma py_len_append (a b : string) :
  py_len (a +:+ b) = (py_len a + py_len b)%nat.
Proof.
  induction a as [|c a IH]; [reflexivity|].
  change (py_len (String c (a +:+ b)) = (py_len (String c a) + py_len b)%nat).
  rewrite (py_len_cons c (a +:+ b)), (py_len_cons c a), IH.
  now rewrite Nat.add_assoc.
Qed.

Lemma py_len_spaces (n : nat) : py_len (spaces n) = n.
Proof.
  induction n as [|n IH]; [reflexivity|].
  cbn [spaces]. rewrite py_len_cons, IH. reflexivity.
Qed.

(** X16: when the formatter prints the whole line, the condition field
    is the capitalised text between two runs of spaces, the right one
    equal to the left one or one longer, that together fill the field width
    [style.PADDING]; a text longer than the field gets no space and is
    printed whole, so the field is as long as the larger of the two. *)
Theorem condition_field_is_centred_and_never_cut
    (env : Env) (data name temperature code : value) (text glyph : string)
    (color : style_token) (s : state) :
  has_fields data name (VStr text) temperature code →
  _select_weather_display_params code = Ok (glyph, color) →
  ∃ left right,
    display_weather_info env data s =
      (with_output s
         (line_head env name ++ glyph_segment glyph color ++
          [OutText ((spaces left +:+ str_capitalize env text +:+ spaces right)
                    +:+ " ");
           OutStyle RESET;
           OutText (("(" +:+ py_str env temperature +:+ "°" +:+ "C" +:+ ")")
                    +:+ newline)]),
       Ok tt)
    ∧ (left + right = PADDING env - py_len (str_capitalize env text))%nat
    ∧ (left ≤ right)%nat ∧ (right ≤ left + 1)%nat
    ∧ py_len (spaces left +:+ str_capitalize env text +:+ spaces right)
      = Nat.max (PADDING env) (py_len (str_capitalize env text)).
Proof.
  intros Hf Hcls.
  rewrite (display_on_fields env data name (VStr text) temperature code s Hf), Hcls.
  cbn [capitalize]. unfold format_center.
  set (total := (PADDING env - py_len (str_capitalize env text))%nat).
  assert (Hhalf : (total / 2 ≤ total - total / 2
                   ∧ total - total / 2 ≤ total / 2 + 1
                   ∧ total / 2 + (total - total / 2) = total)%nat).
  { pose proof (Nat.div_mod_eq total 2) as Hdm.
    pose proof (Nat.mod_upper_bound total 2) as Hmod. lia. }
  exists (total / 2)%nat, (total - total / 2)%nat.
  split; [reflexivity|].
  rewrite !py_len_append, !py_len_spaces. unfold total in *. lia.
Qed.

(** X16 for the Oslo response: ten characters in a field of twenty. *)
Lemma oslo_condition_is_centred :
  has_fields oslo (VStr "Oslo") (VStr "light snow") (VInt (-3)) (VInt 1213)
  ∧ _select_weather_display_params (VInt 1213) = Ok ("⛄️", WHITE)
  ∧ format_center (str_capitalize env_oslo "light snow") (PADDING env_oslo)
    = "     Light snow     "
  ∧ ∃ left right,
      display_weather_info env_oslo oslo initial_state =
        (with_output initial_state
           (line_head env_oslo (VStr "Oslo") ++ glyph_segment "⛄️" WHITE ++
            [OutText ((spaces left +:+ str_capitalize env_oslo "light snow"
                       +:+ spaces right) +:+ " ");
             OutStyle RESET;
             OutText (("(" +:+ py_str env_oslo (VInt (-3)) +:+ "°" +:+ "C" +:+ ")")
                      +:+ newline)]),
         Ok tt)
      ∧ (left + right
         = PADDING env_oslo - py_len (str_capitalize env_oslo "light snow"))%nat
      ∧ (left ≤ right)%nat ∧ (right ≤ left + 1)%nat
      ∧ py_len (spaces left +:+ str_capitalize env_oslo "light snow"
                +:+ spaces right)
        = Nat.max (PADDING env_oslo) (py_len (str_capitalize env_oslo "light snow")).
Proof.
  assert (Hf : has_fields oslo (VStr "Oslo") (VStr "light snow") (VInt (-3))
                 (VInt 1213)) by (repeat split; reflexivity).
  split; [exact Hf|]. split; [reflexivity|]. split; [reflexivity|].
  exact (condition_field_is_centred_and_never_cut env_oslo oslo (VStr "Oslo")
           (VInt (-3)) (VInt 1213) "light snow" "⛄️" WHITE initial_state
           Hf eq_refl).
Defined.
